(** * Arctyk RED pipeline: a shallow embedding of the file and SQL stages

    The development follows the three Python modules of the repository:
    - [Common]   : arctyk_common.py   (RepoExec.AuditLog, RepoExec.ExitHandler)
    - [FileExec] : arctyk_file_exec.py (fix_path, wait_for_file, compress_file, ...)
    - [SqlExec]  : arctyk_sql_exec.py  (fix_path, valid_put_options,
                                        crt_copyinto_message, delete_file,
                                        extract_odbc_dba)

    Python values that the code passes around untyped are kept as a small
    tagged union; exceptions are an explicit result type; the file system, the
    clock, the audit sink and the spawned tools are explicit worlds and
    oracles, and every stage returns the trace of effects it performed. *)

From Stdlib Require Import ZArith List String Ascii Bool Lia DecimalString.
From stdpp Require Import base option list strings gmap.
Import ListNotations.
Local Open Scope string_scope.
Local Open Scope list_scope.
Local Open Scope Z_scope.

(** ** Python built-ins used by the sources

    A [string] is read as a sequence of code points below 256.  Whitespace and
    digit classes are those of [str.isspace] and [str.isdigit] on that range;
    [upper] is Python's on ASCII text (code points above 127 are kept). *)
Module PyStr.

Definition chr (n : nat) : string := String (ascii_of_nat n) EmptyString.

(** [str.isspace] on one character: TAB..CR, FS..US, SPACE, NEL, NBSP. *)
Definition is_space (c : ascii) : bool :=
  let n := nat_of_ascii c in
  ((9 <=? n)%nat && (n <=? 13)%nat)
  || ((28 <=? n)%nat && (n <=? 32)%nat)
  || (n =? 133)%nat || (n =? 160)%nat.

(** [str.isdigit] on one character: 0..9 and the superscripts 1, 2, 3. *)
Definition is_digit_char (c : ascii) : bool :=
  let n := nat_of_ascii c in
  ((48 <=? n)%nat && (n <=? 57)%nat)
  || (n =? 178)%nat || (n =? 179)%nat || (n =? 185)%nat.

Definition is_decimal_char (c : ascii) : bool :=
  let n := nat_of_ascii c in (48 <=? n)%nat && (n <=? 57)%nat.

Fixpoint all_chars (p : ascii -> bool) (s : string) : bool :=
  match s with
  | EmptyString => true
  | String c s' => p c && all_chars p s'
  end.

Fixpoint has_char (x : ascii) (s : string) : bool :=
  match s with
  | EmptyString => false
  | String c s' => Ascii.eqb c x || has_char x s'
  end.

Definition is_empty (s : string) : bool :=
  match s with EmptyString => true | _ => false end.

(** [s.isdigit()] *)
Definition isdigit (s : string) : bool :=
  negb (is_empty s) && all_chars is_digit_char s.

(** [s.lstrip()], [s.rstrip()], [s.strip()] *)
Fixpoint lstrip (s : string) : string :=
  match s with
  | EmptyString => EmptyString
  | String c s' => if is_space c then lstrip s' else s
  end.

Fixpoint rstrip (s : string) : string :=
  match s with
  | EmptyString => EmptyString
  | String c s' =>
      let r := rstrip s' in
      if is_space c && is_empty r then EmptyString else String c r
  end.

Definition strip (s : string) : string := rstrip (lstrip s).

(** [s.count(c)] for one character. *)
Fixpoint count_char (x : ascii) (s : string) : nat :=
  match s with
  | EmptyString => O
  | String c s' => (if Ascii.eqb c x then 1 else 0) + count_char x s'
  end.

(** The last character of a string, if any. *)
Fixpoint last_char (s : string) : option ascii :=
  match s with
  | EmptyString => None
  | String c EmptyString => Some c
  | String _ s' => last_char s'
  end.

Definition ends_with_space (s : string) : bool :=
  match last_char s with
  | Some c => is_space c
  | None => false
  end.

Definition upper_char (c : ascii) : ascii :=
  let n := nat_of_ascii c in
  if ((97 <=? n)%nat && (n <=? 122)%nat)%bool then ascii_of_nat (n - 32) else c.

(** [s.upper()] *)
Fixpoint upper (s : string) : string :=
  match s with
  | EmptyString => EmptyString
  | String c s' => String (upper_char c) (upper s')
  end.

Definition lower_char (c : ascii) : ascii :=
  let n := nat_of_ascii c in
  if ((65 <=? n)%nat && (n <=? 90)%nat)%bool then ascii_of_nat (n + 32) else c.

(** [s.lower()] *)
Fixpoint lower (s : string) : string :=
  match s with
  | EmptyString => EmptyString
  | String c s' => String (lower_char c) (lower s')
  end.

(** [s.replace(old, new)] for a non-empty [old]: leftmost, non-overlapping
    occurrences.  [skip] counts the characters of a match still to be
    dropped. *)
Fixpoint replace_from (old new : string) (skip : nat) (s : string) : string :=
  match s with
  | EmptyString => EmptyString
  | String c s' =>
      match skip with
      | S k => replace_from old new k s'
      | O =>
          if String.prefix old s
          then new +:+ replace_from old new (String.length old - 1) s'
          else String c (replace_from old new O s')
      end
  end.

Definition replace (old new s : string) : string := replace_from old new O s.

(** [s.split(sep)] for a one-character separator. *)
Fixpoint split (sep : ascii) (s : string) : list string :=
  match s with
  | EmptyString => [EmptyString]
  | String c s' =>
      if Ascii.eqb c sep then EmptyString :: split sep s'
      else match split sep s' with
           | h :: t => String c h :: t
           | [] => [String c EmptyString]
           end
  end.

(** [sep.join(l)] *)
Fixpoint join (sep : string) (l : list string) : string :=
  match l with
  | [] => EmptyString
  | [x] => x
  | x :: t => x +:+ sep +:+ join sep t
  end.

(** [str(n)] for an integer. *)
Definition str_of_Z (z : Z) : string := NilZero.string_of_int (Z.to_int z).

(** Digits grouped by three, written on the reversed digit string. *)
Fixpoint group3 (k : nat) (rev_digits : list ascii) : list ascii :=
  match rev_digits with
  | [] => []
  | c :: t =>
      match k, t with
      | _, [] => [c]
      | O, _ => c :: ","%char :: group3 2 t
      | S k', _ => c :: group3 k' t
      end
  end.

(** [f"{n:,}"] : the integer with a comma between groups of thousands. *)
Definition format_thousands (z : Z) : string :=
  let digits := list_ascii_of_string (str_of_Z (Z.abs z)) in
  let body := string_of_list_ascii (rev (group3 2 (rev digits))) in
  if z <? 0 then "-" +:+ body else body.

(** Decimal digits with single underscores allowed between digits, as
    [int()] accepts them. *)
Fixpoint parse_digits (acc : Z) (after_digit : bool) (s : string) : option Z :=
  match s with
  | EmptyString => if after_digit then Some acc else None
  | String c s' =>
      if is_decimal_char c
      then parse_digits (10 * acc + Z.of_nat (nat_of_ascii c - 48)) true s'
      else if (Ascii.eqb c "_" && after_digit)%bool
      then parse_digits acc false s'
      else None
  end.

(** [int(s)] on a string: [None] stands for ValueError. *)
Definition int_of_str (s : string) : option Z :=
  match strip s with
  | String "-" r => Z.opp <$> parse_digits 0 false r
  | String "+" r => parse_digits 0 false r
  | r => parse_digits 0 false r
  end.

End PyStr.


(** ** Python values, exceptions and results *)
Module Py.

(** The values the sources pass around without a declared type. *)
Inductive value : Type :=
| VInt (z : Z)
| VStr (s : string)
| VNone.

Inductive exn : Type :=
| ValueError
| TypeError
| IndexError
| NameError
| KeyError
| FileNotFoundError
| ArrowInvalid.

Inductive result (A : Type) : Type :=
| Ok (a : A)
| Raise (e : exn).
Arguments Ok {A} a.
Arguments Raise {A} e.

(** [str(v)] *)
Definition str (v : value) : string :=
  match v with
  | VInt z => PyStr.str_of_Z z
  | VStr s => s
  | VNone => "None"
  end.

(** [v == n] for an integer literal [n]: a string never equals an integer. *)
Definition eq_int (v : value) (n : Z) : bool :=
  match v with
  | VInt z => z =? n
  | _ => false
  end.

(** [f"{v:,}"]: integers are grouped, a string rejects the [,] option with
    ValueError, None has no format specification at all (TypeError). *)
Definition format_comma (v : value) : result string :=
  match v with
  | VInt z => Ok (PyStr.format_thousands z)
  | VStr _ => Raise ValueError
  | VNone => Raise TypeError
  end.

(** Binding of a call made with keyword arguments only: every keyword must
    name a parameter and every parameter must be supplied, else TypeError. *)
Fixpoint lookup_kw {A} (name : string) (kwargs : list (string * A)) : option A :=
  match kwargs with
  | [] => None
  | (k, v) :: t => if String.eqb k name then Some v else lookup_kw name t
  end.

Definition bind_kwargs {A} (params : list string) (kwargs : list (string * A))
  : result (list A) :=
  if forallb (fun kv => existsb (String.eqb (fst kv)) params) kwargs
  then match mapM (fun p => lookup_kw p kwargs) params with
       | Some args => Ok args
       | None => Raise TypeError
       end
  else Raise TypeError.

(** ** Slices and ranges *)

(** [l[i:j]] with Python's treatment of negative and out-of-range bounds. *)
Definition clamp_index (len i : Z) : Z :=
  let i' := if i <? 0 then i + len else i in
  Z.max 0 (Z.min len i').

Definition slice {A} (l : list A) (i j : Z) : list A :=
  let len := Z.of_nat (length l) in
  let lo := clamp_index len i in
  let hi := clamp_index len j in
  take (Z.to_nat (hi - lo)) (drop (Z.to_nat lo) l).

(** [range(start, stop, step)]; a zero step is a ValueError. *)
Definition range_len (start stop step : Z) : nat :=
  if 0 <? step then Z.to_nat ((stop - start + step - 1) / step)
  else Z.to_nat ((start - stop - step - 1) / (- step)).

Definition range (start stop step : Z) : result (list Z) :=
  if step =? 0 then Raise ValueError
  else Ok (map (fun k => start + Z.of_nat k * step) (seq 0 (range_len start stop step))).

End Py.

(** ** arctyk_common.py *)
Module Common.
Import Py.

(** What the interpreter does with the argument of [sys.exit]: an integer is
    the exit status, None is status 0, anything else is printed on the error
    stream and the status is 1. *)
Record exit_report : Type := mk_exit_report {
  printed : list string;
  logged : list string;
  stderr : list string;
  status : Z
}.

Definition sys_exit (arg : value) (out log : list string) : exit_report :=
  match arg with
  | VInt z => mk_exit_report out log [] z
  | VNone => mk_exit_report out log [] 0
  | VStr s => mk_exit_report out log [s] 1
  end.

(** [RepoExec.ExitHandler] *)
Definition ExitHandler (environ : gmap string string)
    (result_code : value) (result_message : string) : exit_report :=
  let wsl_job_key := default "0" (environ !! "WSL_JOB_KEY") in
  let wsl_job_name := default "Develop" (environ !! "WSL_JOB_NAME") in
  if String.eqb wsl_job_key "0" && String.eqb wsl_job_name "Develop" then
    let exit_code := VInt 0 in
    sys_exit exit_code [str result_code; result_message] []
  else if eq_int result_code 1 then
    let exit_code := VInt 0 in
    sys_exit exit_code [str result_code; result_message] []
  else
    let exit_code := result_code in
    sys_exit exit_code [str exit_code; result_message]
      ["ExitHandler error occurred: " +:+ result_message].

(** The record [RepoExec.AuditLog] hands to the WsWrkAudit procedure. *)
Record audit_record : Type := mk_audit_record {
  a_status_code : string;
  a_job_name : string;
  a_task_name : string;
  a_sequence : string;
  a_message : string;
  a_db_code : string;
  a_db_msg : string;
  a_task_key : string;
  a_job_key : string
}.

Definition clean (message : string) : string :=
  PyStr.replace "\n" " " (PyStr.replace "'" "''" message).

Definition audit_record_of (environ : gmap string string)
    (status_code message db_code db_message : string) : audit_record :=
  {| a_status_code := status_code;
     a_job_name := default "Job Name Not Found" (environ !! "WSL_JOB_NAME");
     a_task_name := default "Task Name Not Found" (environ !! "WSL_TASK_NAME");
     a_sequence := default "-1" (environ !! "WSL_SEQUENCE");
     a_message := clean message;
     a_db_code := db_code;
     a_db_msg := clean db_message;
     a_task_key := default "-1" (environ !! "WSL_TASK_KEY");
     a_job_key := default "-1" (environ !! "WSL_JOB_KEY") |}.

(** What [AuditLog] returns: the rows fetched from the procedure, or the
    empty string it was initialised with when the call failed. *)
Inductive audit_answer : Type :=
| Fetched (rows : list (list value))
| NoAnswer.

(** [ret_code[0][0]] on such an answer. *)
Definition first_cell (a : audit_answer) : result value :=
  match a with
  | Fetched ((c :: _) :: _) => Ok c
  | _ => Raise IndexError
  end.

(** The part of the outside world the SQL stages act on: the files of the
    working directory, the audit trail and the debug log. *)
Record world : Type := mk_world {
  files : gset string;
  audit : list audit_record;
  logs : list string
}.

(** Stateful code that may raise: the world survives an exception. *)
Definition Eff (A : Type) : Type := world -> result A * world.

Definition ret {A} (a : A) : Eff A := fun w => (Ok a, w).
Definition raise {A} (e : exn) : Eff A := fun w => (Raise e, w).
Definition bind {A B} (m : Eff A) (k : A -> Eff B) : Eff B :=
  fun w => match m w with
           | (Ok a, w') => k a w'
           | (Raise e, w') => (Raise e, w')
           end.
Definition lift {A} (r : result A) : Eff A := fun w => (r, w).

(** [try: m except ...: handler] *)
Definition try_except {A} (m : Eff A) (handler : exn -> Eff A) : Eff A :=
  fun w => match m w with
           | (Ok a, w') => (Ok a, w')
           | (Raise e, w') => handler e w'
           end.

Declare Scope eff_scope.
Delimit Scope eff_scope with eff.
Notation "'let*' x := m 'in' k" := (bind m (fun x => k))
  (at level 10, x name, m at level 100, k at level 200) : eff_scope.
Notation "m ;;; k" := (bind m (fun _ => k))
  (at level 100, k at level 200, right associativity) : eff_scope.

Definition logging_debug (msg : string) : Eff unit :=
  fun w => (Ok tt, mk_world (files w) (audit w) (logs w ++ [msg])).

(** [RepoExec.AuditLog]: the record is handed to the sink, whose rows (or
    the initial empty string when the call failed) are returned. *)
Definition AuditLog (environ : gmap string string)
    (WsWrkAudit : audit_record -> audit_answer)
    (status_code message db_code db_message : string) : Eff audit_answer :=
  fun w =>
    let r := audit_record_of environ status_code message db_code db_message in
    (Ok (WsWrkAudit r), mk_world (files w) (audit w ++ [r]) (logs w)).

End Common.

(** ** arctyk_file_exec.py *)
Module FileExec.
Import Py.

(** [os.path] and [fnmatch] are taken as given. *)
Record os_path : Type := mk_os_path {
  path_join : string -> string -> string;
  path_basename : string -> string;
  path_dirname : string -> string;
  path_splitext : string -> string * string;
  fnmatch : string -> string -> bool
}.

(** The directory tree as other processes change it: what exists and what a
    glob pattern matches at a given clock reading. *)
Record file_system : Type := mk_file_system {
  path_exists : Z -> string -> bool;
  glob_glob : Z -> string -> list string;
  listdir : string -> list string
}.

(** Effects of the file-arrival gate, in program order. *)
Inductive event : Type :=
| EvPathExists (path : string)
| EvGlob (pattern : string)
| EvTime
| EvSleep (seconds : Z)
| EvLog (msg : string).

(** The file-arrival gate threads the clock (whole seconds, on which [round] is the
    identity) and the trace of its effects. *)
Record gate_state : Type := mk_gate_state {
  clock : Z;
  trace : list event
}.

Definition Gate (A : Type) : Type := gate_state -> A * gate_state.

Definition ret {A} (a : A) : Gate A := fun st => (a, st).
Definition bind {A B} (m : Gate A) (k : A -> Gate B) : Gate B :=
  fun st => let (a, st') := m st in k a st'.

Declare Scope gate_scope.
Delimit Scope gate_scope with gate.
Notation "'let*' x := m 'in' k" := (bind m (fun x => k))
  (at level 10, x name, m at level 100, k at level 200) : gate_scope.
Notation "m ;;; k" := (bind m (fun _ => k))
  (at level 100, k at level 200, right associativity) : gate_scope.
Local Open Scope gate_scope.

Definition emit (e : event) : Gate unit :=
  fun st => (tt, mk_gate_state (clock st) (trace st ++ [e])).

Definition logging_debug (msg : string) : Gate unit := emit (EvLog msg).

Definition time_time : Gate Z :=
  fun st => (clock st, mk_gate_state (clock st) (trace st ++ [EvTime])).

Definition time_sleep (seconds : Z) : Gate unit :=
  fun st => (tt, mk_gate_state (clock st + seconds) (trace st ++ [EvSleep seconds])).

(** [fix_path] *)
Definition fix_path (directory : string) : string :=
  let new_path := PyStr.rstrip (PyStr.replace "\" "/" directory) in
  new_path.

Section WithSystem.
Context (os : os_path) (fs : file_system).

Definition os_path_exists (path : string) : Gate bool :=
  fun st => (path_exists fs (clock st) path,
             mk_gate_state (clock st) (trace st ++ [EvPathExists path])).

Definition glob (pattern : string) : Gate (list string) :=
  fun st => (glob_glob fs (clock st) pattern,
             mk_gate_state (clock st) (trace st ++ [EvGlob pattern])).

(** [find_files]: the empty list stands for the [False] it returns when
    nothing matched. *)
Definition find_files (folder name_pattern extension : string)
  : Gate (list (string * string)) :=
  let folder := fix_path folder in
  let* files := glob (path_join os folder (name_pattern +:+ extension)) in
  let file_info := map (fun file => (folder, path_basename os file)) files in
  ret file_info.

(** [set_wait_file] *)
Definition set_wait_file (trigger_file_pattern file_pattern source_path : string)
  : string * string :=
  let wait_filename :=
    if (0 <? String.length trigger_file_pattern)%nat
    then trigger_file_pattern else file_pattern in
  path_splitext os wait_filename.

Definition truthy {A} (l : list A) : bool :=
  match l with [] => false | _ => true end.

(** The [while True] loop of [wait_for_file]; [None] is returned only when
    the fuel is used up. *)
Fixpoint wait_loop (fuel : nat) (wait_response source_path : string) (wait_time : Z)
    (file_pattern wait_filename wait_file_extension : string) (start_time : Z)
  : Gate (option (string * string)) :=
  match fuel with
  | O => ret None
  | S fuel' =>
      let* now := time_time in
      let elapsed_time := now - start_time in
      if elapsed_time <? wait_time then
        let* result := find_files source_path wait_filename wait_file_extension in
        if truthy result then
          let ret_msg := "File " +:+ wait_filename +:+ " was found." in
          logging_debug ret_msg ;;;
          ret (Some ("1", ret_msg))
        else
          let remaining_time := wait_time - elapsed_time in
          logging_debug ("Elapsed time: " +:+ PyStr.str_of_Z elapsed_time
                         +:+ " seconds, remaining time to wait is now "
                         +:+ PyStr.str_of_Z remaining_time +:+ " seconds") ;;;
          time_sleep 5 ;;;
          wait_loop fuel' wait_response source_path wait_time
                    file_pattern wait_filename wait_file_extension start_time
      else
        logging_debug ("Maximum wait time of " +:+ PyStr.str_of_Z wait_time
                       +:+ " seconds expired and no file matching pattern "
                       +:+ file_pattern +:+ " was found.") ;;;
        let ret_msg :=
          "Checking for file Exist is True and Action when Wait Limit Reached is specified as "
          +:+ wait_response +:+ "." in
        logging_debug ret_msg ;;;
        if String.eqb wait_response "Error" then ret (Some ("-2", ret_msg))
        else if String.eqb wait_response "Fatal Error" then ret (Some ("-3", ret_msg))
        else if String.eqb wait_response "Warning" then ret (Some ("-1", ret_msg))
        else
          ret (Some ("-3", "Invalid wait_response value of " +:+ wait_response
                           +:+ " was specified and we reached the wait time limit"))
  end.

(** [wait_for_file] *)
Definition wait_for_file (fuel : nat) (check_exist wait_response source_path : string)
    (wait_time : Z) (trigger_file_pattern file_pattern : string)
  : Gate (option (string * string)) :=
  let source_path := fix_path source_path in
  let* found := os_path_exists source_path in
  if negb found then
    let ret_code := "-3" in
    let ret_msg := "Folder " +:+ source_path +:+ " was not found." in
    logging_debug ret_msg ;;;
    ret (Some (ret_code, ret_msg))
  else
    let '(wait_filename, wait_file_extension) :=
      set_wait_file trigger_file_pattern file_pattern source_path in
    logging_debug ("Wait time for " +:+ wait_filename +:+ " is "
                   +:+ PyStr.str_of_Z wait_time +:+ " seconds") ;;;
    let* start_time := time_time in
    let* result := find_files source_path wait_filename wait_file_extension in
    if truthy result then
      let ret_msg := "File " +:+ wait_filename +:+ " was found." in
      logging_debug ret_msg ;;;
      ret (Some ("1", ret_msg))
    else if String.eqb check_exist "false" then
      let ret_msg := "File " +:+ wait_filename +:+ wait_file_extension
                     +:+ " was not found with check_exist = false in "
                     +:+ source_path +:+ "." in
      logging_debug ret_msg ;;;
      ret (Some ("-3", ret_msg))
    else
      wait_loop fuel wait_response source_path wait_time
                file_pattern wait_filename wait_file_extension start_time.

(** File operations of the compressor, as attempted by one worker. *)
Inductive file_op : Type :=
| OpMakedirs (dir : string)
| OpGzip (src dst : string)
| OpReadCsv (path : string) (has_header : bool) (separator quote_char : string)
| OpWriteParquet (path : string)
| OpLog (msg : string).

(** [compress_file] *)
Definition compress_file (filename source_path has_header separator quote_char
    compress_method : string) : list file_op :=
  let full_file_path := path_join os source_path filename in
  let has_header_bool := String.eqb (PyStr.lower has_header) "true" in
  if String.eqb (PyStr.lower compress_method) "gzip" then
    let compressed_file_path := full_file_path +:+ ".gz" in
    [OpMakedirs (path_dirname os compressed_file_path);
     OpGzip full_file_path compressed_file_path]
  else if String.eqb (PyStr.lower compress_method) "parquet" then
    let new_filename := fst (path_splitext os filename) +:+ ".parquet" in
    let new_file_path := path_join os source_path new_filename in
    [OpReadCsv full_file_path has_header_bool "," (PyStr.chr 34);
     OpWriteParquet new_file_path]
  else
    [OpLog "No compression method specified - exiting"].

(** One call submitted to the process pool. *)
Record task : Type := mk_task {
  t_filename : string;
  t_source_path : string;
  t_has_header : string;
  t_separator : string;
  t_quote_char : string;
  t_compress_method : string
}.

Definition run_task (t : task) : list file_op :=
  compress_file (t_filename t) (t_source_path t) (t_has_header t)
                (t_separator t) (t_quote_char t) (t_compress_method t).

(** [compress_files_concurrently]: the calls submitted for one batch. *)
Definition compress_files_concurrently (compress_method : string)
    (file_list : list string) (source_path has_header : string) : list task :=
  let separator := PyStr.chr 18 in
  let quote_char := PyStr.chr 17 in
  map (fun filename =>
         mk_task filename source_path has_header separator quote_char compress_method)
      file_list.

(** The batch size of [compress_files_in_folder]: 1 for the empty string,
    else [int(files_per_batch)], which may fail. *)
Definition files_per_batch_int (files_per_batch : string) : option Z :=
  if (String.length files_per_batch =? 0)%nat then Some (1 : Z)
  else PyStr.int_of_str files_per_batch.

(** The files [compress_files_in_folder] enumerates. *)
Definition matching_files (source_path file_pattern : string) : list string :=
  map (fun file => path_join os source_path file)
      (List.filter (fun file => fnmatch os file file_pattern) (listdir fs source_path)).

(** [compress_files_in_folder]: the batches in the order they are run. *)
Definition compress_files_in_folder (compress_method source_path has_header
    file_pattern files_per_batch : string) : result (list (list task)) :=
  let source_path := fix_path source_path in
  let file_list := matching_files source_path file_pattern in
  match files_per_batch_int files_per_batch with
  | None => Raise ValueError
  | Some files_per_batch_int =>
      match range 0 (Z.of_nat (length file_list)) files_per_batch_int with
      | Raise e => Raise e
      | Ok starts =>
          let batches :=
            map (fun i => slice file_list i (i + files_per_batch_int)) starts in
          Ok (map (fun file_batch =>
                     compress_files_concurrently compress_method file_batch
                                                 source_path has_header)
                  batches)
      end
  end.

End WithSystem.
End FileExec.

(** ** arctyk_sql_exec.py *)
Module SqlExec.
Import Py Common.
Local Open Scope eff_scope.

(** [fix_path] *)
Definition fix_path (directory : string) : string :=
  let new_path := PyStr.rstrip (PyStr.replace "\" "/" directory) in
  new_path.

Definition valid_keywords : list string :=
  ["PARALLEL"; "OVERWRITE"; "AUTO_COMPRESS"; "SOURCE_COMPRESSION"].

Definition valid_arguments : gmap string (list string) :=
  <["PARALLEL" := ["@@"]]>
  (<["OVERWRITE" := ["TRUE"; "FALSE"]]>
  (<["AUTO_COMPRESS" := ["TRUE"; "FALSE"]]>
  (<["SOURCE_COMPRESSION" :=
       ["AUTO_DETECT"; "GZIP"; "BZ2"; "BROTLI"; "ZSTD"; "DEFLATE"; "RAW_DEFLATE"; "NONE"]]>
   ∅))).

(** [x in l] on strings. *)
Definition inb (x : string) (l : list string) : bool := existsb (String.eqb x) l.

(** A dict in insertion order, as [keyword_count.items()] walks it. *)
Fixpoint dict_get (d : list (string * Z)) (k : string) (dflt : Z) : Z :=
  match d with
  | [] => dflt
  | (k', v) :: t => if String.eqb k' k then v else dict_get t k dflt
  end.

Fixpoint dict_set (d : list (string * Z)) (k : string) (v : Z) : list (string * Z) :=
  match d with
  | [] => [(k, v)]
  | (k', v') :: t => if String.eqb k' k then (k', v) :: t else (k', v') :: dict_set t k v
  end.

Definition not_valid_keyword (keyword : string) : string :=
  keyword +:+ " is not a valid keyword. Valid keywords are: "
  +:+ PyStr.join ", " valid_keywords.

(** One turn of the loop over the options either goes on with the updated
    counts or returns from the function. *)
Inductive turn : Type :=
| Continue (keyword_count : list (string * Z))
| Return (answer : bool * string).

(** [valid_arguments[k]] *)
Definition arguments_of (k : string) : result (list string) :=
  match valid_arguments !! k with
  | Some l => Ok l
  | None => Raise KeyError
  end.

Definition check_option (option : string) (keyword_count : list (string * Z))
  : result turn :=
  match PyStr.split "=" (PyStr.strip option) with
  | [keyword; argument] =>
      let kw := PyStr.strip keyword in
      let counted :=
        Ok (Continue (dict_set keyword_count kw (dict_get keyword_count kw 0 + 1))) in
      if negb (inb kw valid_keywords) then
        Ok (Return (false, not_valid_keyword kw))
      else if String.eqb kw "PARALLEL" then
        if negb (PyStr.isdigit (PyStr.strip argument))
        then Ok (Return (false, not_valid_keyword kw))
        else counted
      else if String.eqb kw "OVERWRITE" then
        match arguments_of kw with
        | Raise e => Raise e
        | Ok allowed =>
            if negb (inb (PyStr.strip argument) allowed)
            then Ok (Return (false, not_valid_keyword kw))
            else counted
        end
      else
        match arguments_of kw with
        | Raise e => Raise e
        | Ok allowed =>
            if negb (inb (PyStr.strip argument) allowed)
            then Ok (Return (false, not_valid_keyword kw))
            else counted
        end
  | _ => Raise ValueError
  end.

Fixpoint check_options (options : list string) (keyword_count : list (string * Z))
  : result turn :=
  match options with
  | [] => Ok (Continue keyword_count)
  | option :: rest =>
      match check_option option keyword_count with
      | Ok (Continue keyword_count') => check_options rest keyword_count'
      | other => other
      end
  end.

(** [valid_put_options]: a value without [upper] (anything but a string)
    takes the default of the exception handler. *)
Definition valid_put_options (options_string : value) : result (bool * string) :=
  let options :=
    match options_string with
    | VStr s => PyStr.split "," (PyStr.upper s)
    | _ => ["OVERWRITE=FALSE"]
    end in
  match check_options options [] with
  | Raise e => Raise e
  | Ok (Return answer) => Ok answer
  | Ok (Continue keyword_count) =>
      match List.find (fun kc => (1 <? snd kc) && negb (String.eqb (fst kc) "OVERWRITE"))
                      keyword_count with
      | Some (keyword, _) => Ok (false, keyword)
      | None =>
          match last options with
          | Some option =>
              let run_options := PyStr.replace "," "" option in
              Ok (true, run_options)
          | None => Raise NameError
          end
      end
  end.

(** What the stages call but do not implement. *)
Record externals : Type := mk_externals {
  environ : gmap string string;
  WsWrkAudit : audit_record -> audit_answer;
  os_path_join : string -> string -> string;
  (** [subprocess.run(..., check=True)]: the standard output and the files
      left behind, or the non-zero exit status. *)
  subprocess_run : string -> gset string -> (string * gset string) + Z;
  chardet_detect : string -> string;
  (** [csv.read_csv]: the table (by its printed form) or a parse error. *)
  read_csv : string -> string -> option string
}.

(** One response row of the bulk load, by the ten fields the loader
    unpacks it into. *)
Record file_row : Type := mk_file_row {
  file : string;
  row_status : string;
  rows_parsed : Z;
  rows_loaded : Z;
  error_limit : Z;
  errors_seen : Z;
  first_error : value;
  first_error_line : value;
  first_error_character : value;
  first_error_column_name : value
}.

Definition tuple_of (r : file_row) : list value :=
  [VStr (file r); VStr (row_status r); VInt (rows_parsed r); VInt (rows_loaded r);
   VInt (error_limit r); VInt (errors_seen r); first_error r; first_error_line r;
   first_error_character r; first_error_column_name r].

Section WithExternals.
Context (ext : externals).

Definition audit_log := AuditLog (environ ext) (WsWrkAudit ext).

(** The loop of [crt_copyinto_message] over the response rows. *)
Fixpoint copyinto_rows (results : list (list value))
    (rows_loaded_sum files_loaded_count : Z) : Eff (Z * Z) :=
  match results with
  | [] => ret (rows_loaded_sum, files_loaded_count)
  | row :: rest =>
      match row with
      | [file; status; rows_parsed; rows_loaded; error_limit; errors_seen;
         first_error; first_error_line; first_error_character;
         first_error_column_name] =>
          let* fmt_rows_loaded := lift (format_comma rows_loaded) in
          let db_row_msg :=
            str file +:+ " " +:+ str status +:+ " with " +:+ fmt_rows_loaded
            +:+ " rows loaded" in
          let msg := "Copy Into executed successfully" in
          audit_log "I" msg "db_code3" db_row_msg ;;;
          let* n := lift (match rows_loaded with
                          | VInt z => Ok z
                          | _ => Raise TypeError
                          end) in
          copyinto_rows rest (rows_loaded_sum + n) (files_loaded_count + 1)
      | _ => raise ValueError
      end
  end.

Definition files_word (files_loaded_count : Z) : string :=
  if files_loaded_count =? 1 then "file" else "files".

Definition final_db_msg (rows_loaded_sum files_loaded_count : Z) : string :=
  "A total of " +:+ PyStr.format_thousands rows_loaded_sum
  +:+ " rows were loaded from " +:+ PyStr.str_of_Z files_loaded_count
  +:+ " " +:+ files_word files_loaded_count.

(** [crt_copyinto_message] *)
Definition crt_copyinto_message (results : list (list value)) : Eff (string * string) :=
  let* totals :=
    try_except (copyinto_rows results 0 0)
      (fun e => match e with
                | ValueError =>
                    let msg := "CopyInto did not load any rows" in
                    logging_debug msg ;;;
                    audit_log "I" msg "db_code3" "" ;;;
                    ret (0, 0)
                | _ => raise e
                end) in
  let rows_loaded_sum := fst totals in
  let files_loaded_count := snd totals in
  let msg := "CopyInto phase of script is done" in
  let* ret_code := audit_log "I" msg "db_code3"
                     (final_db_msg rows_loaded_sum files_loaded_count) in
  let* cell := lift (first_cell ret_code) in
  let ret_code_fmt := str cell in
  ret (ret_code_fmt, final_db_msg rows_loaded_sum files_loaded_count).

(** [delete_file] *)
Definition delete_file (filename : string) : Eff unit :=
  fun w =>
    if decide (filename ∈ files w) then
      (Ok tt, mk_world (files w ∖ {[filename]}) (audit w)
                       (logs w ++ ["Deleted temporary file: " +:+ filename]))
    else
      (Ok tt, mk_world (files w) (audit w)
                       (logs w ++ ["The Delete_file function did not find temporary file: "
                                   +:+ filename])).

(** A call [delete_file(name=value, ...)]: the interpreter binds the
    keywords to the one parameter [filename] before the body runs. *)
Definition call_delete_file (kwargs : list (string * string)) : Eff unit :=
  let* args := lift (bind_kwargs ["filename"] kwargs) in
  match args with
  | [filename] => delete_file filename
  | _ => raise TypeError
  end.

(** [write_sql_to_file] *)
Definition write_sql_to_file (sql sql_filename : string) : Eff string :=
  fun w =>
    let sql_written := "sql written to temporary file " +:+ sql_filename in
    (Ok sql_written, mk_world ({[sql_filename]} ∪ files w) (audit w)
                              (logs w ++ [sql_written])).

Definition run_process (command : string) : Eff ((string * gset string) + Z) :=
  fun w => (Ok (subprocess_run ext command (files w)), w).

Definition set_files (fs : gset string) : Eff unit :=
  fun w => (Ok tt, mk_world fs (audit w) (logs w)).

Definition open_read (filename : string) : Eff unit :=
  fun w => if decide (filename ∈ files w) then (Ok tt, w)
           else (Raise FileNotFoundError, w).

Definition write_table (parquet_filename : string) : Eff unit :=
  fun w => (Ok tt, mk_world ({[parquet_filename]} ∪ files w) (audit w) (logs w)).

Definition dba_command (dsn_arch source_dsn user password sql_filename
    data_filename : string) : string :=
  PyStr.chr 34 +:+ "C:\Program Files\WhereScape\RED\dba.exe" +:+ PyStr.chr 34
  +:+ " /B --meta-dsn-arch " +:+ dsn_arch +:+ " /Z /O " +:+ source_dsn
  +:+ " /u  " +:+ user +:+ " /P " +:+ password +:+ " /C " +:+ PyStr.chr 34
  +:+ sql_filename +:+ PyStr.chr 34 +:+ " /D" +:+ PyStr.chr 34 +:+ PyStr.chr 18
  +:+ PyStr.chr 34 +:+ " /F " +:+ data_filename +:+ " ".

(** [extract_odbc_dba] *)
Definition extract_odbc_dba (extract_sql load_table work_dir source_dsn dsn_arch
    user password : string) : Eff (string * string) :=
  let sql_filename := os_path_join ext work_dir load_table +:+ ".sql_tmp" in
  write_sql_to_file extract_sql sql_filename ;;;
  let data_filename := os_path_join ext work_dir load_table +:+ ".dat" in
  let command :=
    dba_command dsn_arch source_dsn user password sql_filename data_filename in
  logging_debug command ;;;
  let* completed_process := run_process command in
  match completed_process with
  | inr exit_status =>
      let ret_msg :=
        "Call to dba failed: " +:+ command +:+ " with error Command '" +:+ command
        +:+ "' returned non-zero exit status " +:+ PyStr.str_of_Z exit_status +:+ "." in
      logging_debug ret_msg ;;;
      ret ("-2", ret_msg)
  | inl (stdout, files_after) =>
      set_files files_after ;;;
      let msg := "dba completed successfully for " +:+ load_table in
      audit_log "I" msg "db_code3" stdout ;;;
      let ret_code := "1" in
      open_read data_filename ;;;
      let encoding := chardet_detect ext data_filename in
      let parquet_filename := os_path_join ext work_dir load_table +:+ ".parquet" in
      let* load_table := lift (match read_csv ext data_filename encoding with
                               | Some table => Ok table
                               | None => Raise ArrowInvalid
                               end) in
      write_table parquet_filename ;;;
      let ret_msg := "Parquet file created for " +:+ load_table in
      audit_log "I" ret_msg "db_code3" "" ;;;
      call_delete_file [("sql_filename", sql_filename)] ;;;
      call_delete_file [("sql_filename", data_filename)] ;;;
      ret (ret_code, ret_msg)
  end.

End WithExternals.
End SqlExec.

(** ** Predicates and sample worlds used in the statements *)

(** An option that the loop of [valid_put_options] passes over without
    returning or raising. *)
Definition accepted_option (option : string) : bool :=
  match SqlExec.check_option option [] with
  | Py.Ok (SqlExec.Continue _) => true
  | _ => false
  end.

(** A scheduler run: both job variables are set. *)
Definition job_environ : gmap string string :=
  <["WSL_JOB_KEY" := "42"]> (<["WSL_JOB_NAME" := "NIGHTLY_LOAD"]> ∅).

(** An environment is a development run when neither job variable overrides
    the defaults of [ExitHandler]. *)
Definition develop_run (environ : gmap string string) : bool :=
  String.eqb (default "0" (environ !! "WSL_JOB_KEY")) "0"
  && String.eqb (default "Develop" (environ !! "WSL_JOB_NAME")) "Develop".

(** A plain [os.path] on forward slashes and a directory that exists but
    never receives a file. *)
Definition plain_os : FileExec.os_path :=
  FileExec.mk_os_path
    (fun a b => a +:+ "/" +:+ b) (fun p => p) (fun p => p)
    (fun p => (p, EmptyString)) (fun _ _ => true).

Definition idle_fs : FileExec.file_system :=
  FileExec.mk_file_system (fun _ _ => true) (fun _ _ => []) (fun _ => []).

Definition no_directory_fs : FileExec.file_system :=
  FileExec.mk_file_system (fun _ _ => false) (fun _ _ => []) (fun _ => []).

Definition fresh_gate : FileExec.gate_state := FileExec.mk_gate_state 0 [].

(** The glob pattern [find_files] polls for a folder and a wait file. *)
Definition polled_pattern (os : FileExec.os_path)
    (source_path wait_filename wait_file_extension : string) : string :=
  FileExec.path_join os (FileExec.fix_path source_path)
                     (wait_filename +:+ wait_file_extension).

Definition five_files_fs : FileExec.file_system :=
  FileExec.mk_file_system (fun _ _ => true) (fun _ _ => [])
    (fun _ => ["a.csv"; "b.csv"; "c.csv"; "d.csv"; "e.csv"]).

(** The audit records of the loader: one per response row, the one of the
    ValueError handler, and the summary. *)
Definition row_event (environ : gmap string string) (r : SqlExec.file_row)
  : Common.audit_record :=
  Common.audit_record_of environ "I" "Copy Into executed successfully" "db_code3"
    (SqlExec.file r +:+ " " +:+ SqlExec.row_status r +:+ " with "
     +:+ PyStr.format_thousands (SqlExec.rows_loaded r) +:+ " rows loaded").

Definition no_rows_event (environ : gmap string string) : Common.audit_record :=
  Common.audit_record_of environ "I" "CopyInto did not load any rows" "db_code3" "".

Definition summary_event (environ : gmap string string)
    (rows_loaded_sum files_loaded_count : Z) : Common.audit_record :=
  Common.audit_record_of environ "I" "CopyInto phase of script is done" "db_code3"
    (SqlExec.final_db_msg rows_loaded_sum files_loaded_count).

Definition total_rows_loaded (rows : list SqlExec.file_row) : Z :=
  fold_right (fun r acc => SqlExec.rows_loaded r + acc) 0 rows.

(** A run of the ODBC extractor in which the tool writes the data file and
    the conversion succeeds; the audit procedure answers 1. *)
Definition dba_ok : SqlExec.externals :=
  SqlExec.mk_externals job_environ
    (fun _ => Common.Fetched [[Py.VInt 1]])
    (fun a b => a +:+ "/" +:+ b)
    (fun _ fs => inl (EmptyString, {["C:/work/CUSTOMERS.dat"]} ∪ fs))
    (fun _ => "utf-8")
    (fun _ _ => Some "pyarrow.Table").

Definition empty_world : Common.world := Common.mk_world ∅ [] [].

Definition customers_row : SqlExec.file_row :=
  SqlExec.mk_file_row "customers.parquet" "LOADED" 5 5 1 0
                      Py.VNone Py.VNone Py.VNone Py.VNone.

(** A directory in which the awaited file shows up ten seconds after the
    clock started, and one in which it is there from the start. *)
Definition arriving_fs : FileExec.file_system :=
  FileExec.mk_file_system (fun _ _ => true)
    (fun t _ => if t <? 10 then [] else ["C:/in/a.csv"]) (fun _ => []).

Definition stocked_fs : FileExec.file_system :=
  FileExec.mk_file_system (fun _ _ => true) (fun _ _ => ["C:/in/a.csv"]) (fun _ => []).

(** ** More of arctyk_common.py *)
Module CommonOps.
Import Py.

(** [v == s] for a string literal [s]. *)
Definition eq_str (v : value) (s : string) : bool :=
  match v with
  | VStr t => String.eqb t s
  | _ => false
  end.

Definition is_none (v : value) : bool :=
  match v with
  | VNone => true
  | _ => false
  end.

(** [RepoExec.set_proper_return_msg] *)
Definition set_proper_return_msg (ret_code : value) (obj_name ret_msg : string)
  : string :=
  if eq_str ret_code "1" then
    ret_msg +:+ " into " +:+ obj_name +:+ " table"
  else if eq_str ret_code "-1" then
    ret_msg +:+ " to " +:+ obj_name +:+ " completed with warnings"
  else if eq_str ret_code "-2" then
    "Job " +:+ obj_name +:+ " failed.  Check logs due to " +:+ ret_msg
  else if eq_str ret_code "-3" then
    "Job " +:+ obj_name +:+ " experienced a fatal error due to " +:+ ret_msg
  else if is_none ret_code then
    "Job " +:+ obj_name
    +:+ " failed.  The script failed to run.  Check the audit log for details due to "
    +:+ ret_msg
  else
    "Job " +:+ obj_name +:+ " failed with return code " +:+ str ret_code
    +:+ ".  Check the audit log for details due to " +:+ ret_msg.

End CommonOps.

(** ** More of arctyk_file_exec.py *)
Module FileOps.
Import Py FileExec.

(** A call with positional arguments only: as many arguments as the
    function has parameters, else TypeError. *)
Definition bind_positional {A} (params : list string) (args : list A)
  : result (list A) :=
  if (length args =? length params)%nat then Ok args else Raise TypeError.

Section WithSystem.
Context (os : os_path) (fs : file_system).

(** [generate_filename_with_datetime]; [current_time] is what
    [time.strftime("%Y%m%d%H%M%S")] returns. *)
Definition generate_filename_with_datetime (current_time filename : string) : string :=
  let new_filename :=
    PyStr.replace "FILENAME" (path_splitext os filename).1 filename in
  let new_filename := PyStr.replace "YYYY" (String.substring 0 4 current_time) new_filename in
  let new_filename := PyStr.replace "MM" (String.substring 4 2 current_time) new_filename in
  let new_filename := PyStr.replace "DD" (String.substring 6 2 current_time) new_filename in
  let new_filename := PyStr.replace "HH" (String.substring 8 2 current_time) new_filename in
  let new_filename := PyStr.replace "MI" (String.substring 10 2 current_time) new_filename in
  let new_filename := PyStr.replace "SS" (String.substring 12 2 current_time) new_filename in
  let new_filename := PyStr.replace "$" "" new_filename in
  new_filename.

(** What [move_files_to_archive] does to the directory tree. *)
Inductive archive_op : Type :=
| ArMakedirs (path : string)
| ArMove (src dst : string)
| ArLog (msg : string).

(** The loop of [move_files_to_archive] over the files found. *)
Fixpoint archive_files (current_time archive_path archive_filename : string)
    (files_to_move : list string) (sequence_number : Z)
  : result unit * list archive_op :=
  match files_to_move with
  | [] => (Ok tt, [])
  | file_to_move :: rest =>
      let filename := path_basename os file_to_move in
      match bind_positional ["filename"] [archive_filename; filename] with
      | Raise e => (Raise e, [])
      | Ok args =>
          match args with
          | [template] =>
              let new_filename := generate_filename_with_datetime current_time template in
              let new_filename :=
                PyStr.replace "$SEQUENCE$" (PyStr.str_of_Z sequence_number) new_filename in
              let new_filename := PyStr.replace "$" "" new_filename in
              let destination_path := path_join os archive_path new_filename in
              let '(r, ops) :=
                archive_files current_time archive_path archive_filename rest
                              (sequence_number + 1) in
              (r, ArMove file_to_move destination_path
                  :: ArLog ("Moved '" +:+ file_to_move +:+ "' to '"
                            +:+ destination_path +:+ "'")
                  :: ops)
          | _ => (Raise TypeError, [])
          end
      end
  end.

(** [move_files_to_archive], run at clock reading [now]. *)
Definition move_files_to_archive (now : Z) (current_time : string)
    (file_pattern source_path archive_path archive_filename : string)
  : result unit * list archive_op :=
  let archive_path := fix_path archive_path in
  let source_path := fix_path source_path in
  let created :=
    if negb (path_exists fs now archive_path)
    then [ArLog ("Archive path '" +:+ archive_path +:+ "' was not found; created it");
          ArMakedirs archive_path]
    else [] in
  let files_to_move := glob_glob fs now (path_join os source_path file_pattern) in
  let '(r, ops) :=
    archive_files current_time archive_path archive_filename files_to_move 1 in
  (r, created ++ ops).

End WithSystem.
End FileOps.

(** ** More of arctyk_sql_exec.py: the uploader's messages and the BCP
    extractor *)
Module SqlOps.
Import Py Common SqlExec.
Local Open Scope eff_scope.

Definition dq : string := PyStr.chr 34.
Definition nl : string := PyStr.chr 10.

(** The longest run of decimal digits a text starts with, and the rest. *)
Fixpoint span_digits (s : string) : string * string :=
  match s with
  | EmptyString => (EmptyString, EmptyString)
  | String c s' =>
      if PyStr.is_decimal_char c
      then let (digits, rest) := span_digits s' in (String c digits, rest)
      else (EmptyString, s)
  end.

(** One match of [(\d+) rows (?:successfully bulk-copied|copied)] at the
    start of a text: the group and the length of the match.  The digits are
    taken greedily; giving one back leaves a digit where the blank must
    be, so there is nothing to backtrack to. *)
Definition match_rows (s : string) : option (string * nat) :=
  let (digits, rest) := span_digits s in
  if PyStr.is_empty digits then None
  else if String.prefix " rows successfully bulk-copied" rest
  then Some (digits, (String.length digits
                      + String.length " rows successfully bulk-copied")%nat)
  else if String.prefix " rows copied" rest
  then Some (digits, (String.length digits + String.length " rows copied")%nat)
  else None.

(** [re.findall] for that pattern: the groups of the matches found from
    left to right, none overlapping another. *)
Fixpoint findall_rows (skip : nat) (s : string) : list string :=
  match s with
  | EmptyString => []
  | String c s' =>
      match skip with
      | S k => findall_rows k s'
      | O =>
          match match_rows s with
          | Some (digits, len) => digits :: findall_rows (len - 1) s'
          | None => findall_rows O s'
          end
      end
  end.

(** [extract_bcp_rows_extracted] *)
Definition extract_bcp_rows_extracted (bcp_std_out : string) : result string :=
  let matches := findall_rows O bcp_std_out in
  match last matches with
  | Some digits =>
      match PyStr.int_of_str digits with
      | Some n => Ok ("BCP extracted " +:+ PyStr.format_thousands n +:+ " rows")
      | None => Raise ValueError
      end
  | None => Ok "BCP extracted 0 rows"
  end.

(** One response row of a PUT, by the eight fields the uploader unpacks. *)
Record put_row : Type := mk_put_row {
  source : string;
  target : string;
  source_size : Z;
  target_size : Z;
  source_compression : string;
  target_compression : string;
  put_status : string;
  put_message : string
}.

Definition put_tuple_of (r : put_row) : list value :=
  [VStr (source r); VStr (target r); VInt (source_size r); VInt (target_size r);
   VStr (source_compression r); VStr (target_compression r); VStr (put_status r);
   VStr (put_message r)].

Section WithExternals.
Context (ext : externals).

(** The loop of [crt_put_message] over the response rows. *)
Fixpoint put_rows (results : list (list value))
    (bytes_loaded_sum files_loaded_count : Z) : Eff (Z * Z) :=
  match results with
  | [] => ret (bytes_loaded_sum, files_loaded_count)
  | row :: rest =>
      match row with
      | [source; target; source_size; target_size; source_compression;
         target_compression; status; message] =>
          let* fmt_bytes_loaded := lift (format_comma target_size) in
          let* n := lift (match target_size with
                          | VInt z => Ok z
                          | _ => Raise TypeError
                          end) in
          let db_row_msg :=
            "File " +:+ str source +:+ " with " +:+ fmt_bytes_loaded
            +:+ " bytes was PUT with status: " +:+ str status +:+ " "
            +:+ str message +:+ "." in
          let msg := "PUT statement executed successfully" in
          audit_log ext "I" msg "db_code3" db_row_msg ;;;
          put_rows rest (bytes_loaded_sum + n) (files_loaded_count + 1)
      | _ => raise ValueError
      end
  end.

Definition put_final_db_msg (bytes_loaded_sum files_loaded_count : Z) : string :=
  "A total of " +:+ PyStr.format_thousands bytes_loaded_sum
  +:+ " bytes were uploaded in " +:+ PyStr.str_of_Z files_loaded_count
  +:+ " " +:+ files_word files_loaded_count.

(** [crt_put_message] *)
Definition crt_put_message (results : list (list value)) : Eff (string * string) :=
  let* totals := put_rows results 0 0 in
  let final_db_msg := put_final_db_msg totals.1 totals.2 in
  let final_msg := "PUT phase of script is done" in
  let* ret_code := audit_log ext "I" final_msg "db_code3" final_db_msg in
  let* cell := lift (first_cell ret_code) in
  let ret_code := str cell in
  ret (ret_code, final_msg).

(** The command line of [extract_bcp]. *)
Definition bcp_command (extract_sql data_filename source_dsn data_file_charset : string)
  : string :=
  let data_file_charset :=
    if (String.length data_file_charset =? 0)%nat then "ACP" else data_file_charset in
  let char_18 := PyStr.chr 18 in
  let bcp_options :=
    " -a 32576 -c -C " +:+ data_file_charset +:+ " -t " +:+ dq +:+ char_18 +:+ dq
    +:+ " -T -D -S " +:+ source_dsn +:+ " -q" in
  PyStr.replace nl " "
    ("bcp " +:+ dq +:+ extract_sql +:+ dq +:+ " queryout " +:+ dq +:+ data_filename
     +:+ dq +:+ " " +:+ bcp_options).

(** [extract_bcp] *)
Definition extract_bcp (extract_sql load_table work_dir source_dsn
    data_file_charset : string) : Eff (string * string) :=
  let data_filename := os_path_join ext work_dir load_table +:+ ".dat" in
  let bcp_command :=
    bcp_command extract_sql data_filename source_dsn data_file_charset in
  let* completed_process := run_process ext bcp_command in
  let* answer :=
    match completed_process with
    | inl (stdout, files_after) =>
        set_files files_after ;;;
        let msg := "BCP completed successfully for " +:+ load_table in
        let* db_row_msg := lift (extract_bcp_rows_extracted stdout) in
        audit_log ext "I" msg "db_code3" db_row_msg ;;;
        ret ("1", msg)
    | inr exit_status =>
        logging_debug
          ("CalledProcessError: Command '" +:+ bcp_command
           +:+ "' returned non-zero exit status " +:+ PyStr.str_of_Z exit_status
           +:+ ".") ;;;
        ret ("-2", "Call to BCP failed: " +:+ bcp_command)
    end in
  let parquet_filename := os_path_join ext work_dir load_table +:+ ".parquet" in
  open_read data_filename ;;;
  let* load_table := lift (match read_csv ext data_filename "utf8" with
                           | Some table => Ok table
                           | None => Raise ArrowInvalid
                           end) in
  write_table parquet_filename ;;;
  let msg := "Parquet file created for " +:+ load_table in
  audit_log ext "I" msg "db_code3" "" ;;;
  ret answer.

End WithExternals.
End SqlOps.

(** The audit records of the uploader. *)
Definition put_event (environ : gmap string string) (r : SqlOps.put_row)
  : Common.audit_record :=
  Common.audit_record_of environ "I" "PUT statement executed successfully" "db_code3"
    ("File " +:+ SqlOps.source r +:+ " with "
     +:+ PyStr.format_thousands (SqlOps.target_size r)
     +:+ " bytes was PUT with status: " +:+ SqlOps.put_status r +:+ " "
     +:+ SqlOps.put_message r +:+ ".").

Definition put_summary_event (environ : gmap string string)
    (bytes_loaded_sum files_loaded_count : Z) : Common.audit_record :=
  Common.audit_record_of environ "I" "PUT phase of script is done" "db_code3"
    (SqlOps.put_final_db_msg bytes_loaded_sum files_loaded_count).

Definition total_bytes (rows : list SqlOps.put_row) : Z :=
  fold_right (fun r acc => SqlOps.target_size r + acc) 0 rows.

(** A run in which the external tool fails with exit status 1; a stale data
    file of an earlier run may still be in the working directory. *)
Definition tool_fails : SqlExec.externals :=
  SqlExec.mk_externals job_environ
    (fun _ => Common.Fetched [[Py.VInt 1]])
    (fun a b => a +:+ "/" +:+ b)
    (fun _ _ => inr 1)
    (fun _ => "utf-8")
    (fun _ _ => Some "pyarrow.Table").

(** A run in which BCP reports the rows it copied. *)
Definition bcp_ok : SqlExec.externals :=
  SqlExec.mk_externals job_environ
    (fun _ => Common.Fetched [[Py.VInt 1]])
    (fun a b => a +:+ "/" +:+ b)
    (fun _ fs => inl ("1250 rows copied.", {["C:/work/CUSTOMERS.dat"]} ∪ fs))
    (fun _ => "utf-8")
    (fun _ _ => Some "pyarrow.Table").

Definition stale_world : Common.world :=
  Common.mk_world {["C:/work/CUSTOMERS.dat"]} [] [].

Definition uploaded_row : SqlOps.put_row :=
  SqlOps.mk_put_row "customers.parquet" "customers.parquet" 4096 2048 "PARQUET"
                    "PARQUET" "UPLOADED" "".

(** ** More of arctyk_sql_exec.py: statements run against the warehouse

    A stage either returns, or lets an exception through, or ends the
    process in [ExitHandler]; the exit is not an exception a handler of the
    stage can catch. *)
Module SqlRun.
Import Py Common SqlExec SqlOps.

(** The errors of the warehouse driver: ProgrammingError, and every other
    class derived from the driver's Error. *)
Inductive driver_error : Type :=
| ProgrammingError (text : string)
| DriverError (text : string).

Inductive failure : Type :=
| Builtin (e : exn)
| Driver (e : driver_error).

Inductive outcome (A : Type) : Type :=
| Returned (a : A)
| Raised (f : failure)
| Exited (report : exit_report).
Arguments Returned {A} a.
Arguments Raised {A} f.
Arguments Exited {A} report.

Definition Proc (A : Type) : Type := world -> outcome A * world.

Definition preturn {A} (a : A) : Proc A := fun w => (Returned a, w).
Definition praise {A} (f : failure) : Proc A := fun w => (Raised f, w).
Definition pbind {A B} (m : Proc A) (k : A -> Proc B) : Proc B :=
  fun w => match m w with
           | (Returned a, w') => k a w'
           | (Raised f, w') => (Raised f, w')
           | (Exited report, w') => (Exited report, w')
           end.

(** Stateful code of the other modules, run inside a stage. *)
Definition perform {A} (m : Eff A) : Proc A :=
  fun w => match m w with
           | (Ok a, w') => (Returned a, w')
           | (Raise e, w') => (Raised (Builtin e), w')
           end.

(** [try: m except ...: handler]: an exit passes through. *)
Definition ptry {A} (m : Proc A) (handler : failure -> Proc A) : Proc A :=
  fun w => match m w with
           | (Raised f, w') => handler f w'
           | other => other
           end.

Declare Scope proc_scope.
Delimit Scope proc_scope with proc.
Notation "'let*' x := m 'in' k" := (pbind m (fun x => k))
  (at level 10, x name, m at level 100, k at level 200) : proc_scope.
Notation "m ;;; k" := (pbind m (fun _ => k))
  (at level 100, k at level 200, right associativity) : proc_scope.
Local Open Scope proc_scope.

(** [s[0]] on a string. *)
Definition first_char (s : string) : result string :=
  match s with
  | EmptyString => Raise IndexError
  | String c _ => Ok (String c EmptyString)
  end.

(** [s.replace(old, new)], also for the empty [old], which puts [new]
    before every character and at the end. *)
Fixpoint interleave (new s : string) : string :=
  match s with
  | EmptyString => new
  | String c s' => new +:+ String c (interleave new s')
  end.

Definition str_replace (old new s : string) : string :=
  if PyStr.is_empty old then interleave new s else PyStr.replace old new s.

(** [s.split(sep)] for a non-empty separator of any length. *)
Fixpoint split_from (sep : string) (skip : nat) (s : string) : list string :=
  match s with
  | EmptyString => [EmptyString]
  | String c s' =>
      match skip with
      | S k => split_from sep k s'
      | O =>
          if String.prefix sep s
          then EmptyString :: split_from sep (String.length sep - 1) s'
          else match split_from sep O s' with
               | h :: t => String c h :: t
               | [] => [String c EmptyString]
               end
      end
  end.

Definition split_str (sep s : string) : list string := split_from sep O s.

(** The warehouse and the interpreter, as far as the stages see them. *)
Record session : Type := mk_session {
  ext : externals;
  (** [crsr.execute(sql)]: the rows of the response, or what it raised. *)
  crsr_execute : string -> list (list value) + failure;
  (** [str(e)] of a built-in exception. *)
  exn_text : exn -> string;
  os_path_splitext : string -> string * string
}.

Section WithSession.
Context (ses : session).

Definition text_of (f : failure) : string :=
  match f with
  | Builtin e => exn_text ses e
  | Driver (ProgrammingError text) => text
  | Driver (DriverError text) => text
  end.

Definition audit (status_code message db_code db_message : string)
  : Proc audit_answer :=
  perform (audit_log (ext ses) status_code message db_code db_message).

Definition debug (msg : string) : Proc unit := perform (logging_debug msg).

Definition execute (sql : string) : Proc (list (list value)) :=
  fun w => match crsr_execute ses sql with
           | inl rows => (Returned rows, w)
           | inr f => (Raised f, w)
           end.

(** A call of [RepoExec.ExitHandler]: the process ends there. *)
Definition exit_handler {A} (result_code result_message : string) : Proc A :=
  fun w => (Exited (ExitHandler (environ (ext ses)) (VStr result_code) result_message), w).

(** The two handlers most stages end with: one for the driver's errors,
    one for every other exception.  Both cut the text at 1023 characters,
    record it and leave through [ExitHandler] with "-2". *)
Definition short_text (f : failure) : string :=
  String.substring 0 1023 (PyStr.replace "'" "`" (PyStr.replace nl " " (text_of f))).

Definition handle_failure {A} (f : failure) : Proc A :=
  let msg := short_text f in
  debug (match f with
         | Driver _ => "Snowflake SQL execution error: " +:+ msg
         | Builtin _ => "An unexpected error occurred: " +:+ msg
         end) ;;;
  audit "E" "Snowflake SQL execution error has been encountered" "db_code3" msg ;;;
  exit_handler "-2" ("Snowflake SQL execution error: " +:+ msg).

(** [put_execute] *)
Definition put_execute (sql : string) : Proc (string * string) :=
  ptry
    (debug ("put_execute: " +:+ sql) ;;;
     let* put_results := execute sql in
     let* answer := perform (crt_put_message (ext ses) put_results) in
     let* c := perform (lift (first_char answer.1)) in
     let* c' := perform (lift (first_char c)) in
     preturn (c', answer.2))
    handle_failure.

(** [copyinto_execute] *)
Definition copyinto_execute (sql : string) : Proc (string * string) :=
  ptry
    (debug sql ;;;
     let* copyinto_results := execute sql in
     let* answer := perform (crt_copyinto_message (ext ses) copyinto_results) in
     let* c := perform (lift (first_char answer.1)) in
     let* c' := perform (lift (first_char c)) in
     preturn (c', answer.2))
    (fun f =>
       match f with
       | Driver (ProgrammingError text) =>
           let final_db_msg := PyStr.replace "'" "" (PyStr.replace "\n" "" text) in
           let msg := "CopyInto phase of script failed" in
           debug ("Snowflake SQL execution error occurred: " +:+ final_db_msg +:+ " ") ;;;
           audit "I" msg "db_code3" final_db_msg ;;;
           exit_handler "-2" ("Snowflake SQL execution error: " +:+ msg)
       | Driver (DriverError _) => handle_failure f
       | Builtin e =>
           let msg := PyStr.replace nl " " (exn_text ses e) in
           debug ("An unexpected error occurred: " +:+ msg) ;;;
           audit "E" "Snowflake SQL execution error has been encountered" "db_code3" msg ;;;
           exit_handler "-2" ("Snowflake SQL execution error: " +:+ msg)
       end).

Definition copy_sql (db_name db_schema load_table sf_stage file_fmt
    copy_into_options : string) : string :=
  nl +:+ "COPY INTO " +:+ db_name +:+ "." +:+ db_schema +:+ "." +:+ load_table +:+ nl
  +:+ "    FROM '" +:+ sf_stage +:+ "'" +:+ nl
  +:+ "    FILE_FORMAT = " +:+ file_fmt +:+ nl
  +:+ "    " +:+ copy_into_options +:+ nl
  +:+ ";         " +:+ nl.

(** [sf_copyinto].  Its first two handlers end in a NameError: both use a
    variable ([msg], [ret_msg]) that has no value at that point. *)
Definition sf_copyinto (db_name db_schema load_table sf_stage file_fmt
    copy_into_options : string) : Proc (string * string) :=
  ptry
    (let* answer :=
       copyinto_execute
         (copy_sql db_name db_schema load_table sf_stage file_fmt copy_into_options) in
     let* c := perform (lift (first_char answer.1)) in
     let* ret_code_fmt := perform (lift (first_char c)) in
     preturn (ret_code_fmt, answer.2))
    (fun f =>
       match f with
       | Driver (ProgrammingError text) =>
           debug "Snowflake SQL execution error occurred: " ;;;
           match split_str ": " text with
           | m0 :: m1 :: m2 :: _ =>
               debug ("Snowflake Return Code:" +:+ m0) ;;;
               debug ("sfqid " +:+ m1 +:+ ":") ;;;
               debug m2 ;;;
               audit "E" "Snowflake SQL execution error has been encountered" "db_code3"
                     (m0 +:+ ":" +:+ m1 +:+ ":" +:+ m2) ;;;
               praise (Builtin NameError)
           | _ =>
               debug "Attempt to format error failed.  Full message follows" ;;;
               debug text ;;;
               audit "E" "Snowflake SQL execution error has been encountered" "db_code3"
                     text ;;;
               praise (Builtin NameError)
           end
       | Driver (DriverError _) => praise (Builtin NameError)
       | Builtin e =>
           let msg := PyStr.replace nl " " (exn_text ses e) in
           debug ("An unexpected error occurred: " +:+ msg) ;;;
           audit "E" "Snowflake SQL execution error has been encountered" "db_code3" msg ;;;
           exit_handler "-2" ("Snowflake SQL execution error: " +:+ msg)
       end).

(** The destination of [sf_put] by mode; [current_datetime] is what
    [datetime.now().strftime("%Y-%m-%d %H:%M:%S")] returns. *)
Definition formatted_datetime (current_datetime : string) : string :=
  PyStr.replace "-" " " (PyStr.replace ":" " " (PyStr.replace " " "_" current_datetime)).

Definition stage_of (current_datetime stage_folder load_table put_mode : string)
  : string :=
  if String.eqb put_mode "TABLE" then "@%" +:+ load_table
  else if String.eqb put_mode "FOLDER" then
    "@" +:+ stage_folder +:+ "/" +:+ load_table +:+ "/"
    +:+ formatted_datetime current_datetime
  else EmptyString.

Definition put_file_pattern (file_pattern load_file_extension : string) : string :=
  if String.eqb (PyStr.upper load_file_extension) "PARQUET" then
    let old_extension := (os_path_splitext ses file_pattern).2 in
    let new_extension := "." +:+ load_file_extension in
    str_replace old_extension new_extension file_pattern
  else file_pattern.

Definition put_sql (source_path new_file_pattern sf_stage put_options : string)
  : string :=
  let src_path := fix_path source_path in
  let put_path := src_path +:+ new_file_pattern in
  "PUT 'file://" +:+ put_path +:+ "' '" +:+ sf_stage +:+ "' " +:+ put_options +:+ ";".

(** [sf_put] *)
Definition sf_put (current_datetime : string)
    (source_path file_pattern stage_folder load_file_extension load_table
       put_mode : string) (put_options : value) : Proc (bool * string) :=
  ptry
    (let* checked := perform (lift (valid_put_options put_options)) in
     let pass_put := checked.1 in
     let put_options := checked.2 in
     let sf_stage := stage_of current_datetime stage_folder load_table put_mode in
     let new_file_pattern := put_file_pattern file_pattern load_file_extension in
     debug ("the sf_stage is :" +:+ sf_stage +:+ ", the put_path is :"
            +:+ fix_path source_path +:+ new_file_pattern +:+ " " +:+ put_options
            +:+ nl +:+ "              put_sql is :") ;;;
     put_execute (put_sql source_path new_file_pattern sf_stage put_options) ;;;
     preturn sf_stage)
    handle_failure
  ;;;
  preturn (true, stage_of current_datetime stage_folder load_table put_mode).

Definition check_sql (table_name : string) : string :=
  nl +:+ "    select 1 from INFORMATION_SCHEMA.Tables WHERE TABLE_NAME = '"
  +:+ table_name +:+ "';" +:+ nl.

(** The loop of [check_table_exists]: [item[0] == 1] for every row. *)
Fixpoint scan_rows (test_results : list (list value)) (table_exists : bool)
  : result bool :=
  match test_results with
  | [] => Ok table_exists
  | item :: rest =>
      match item with
      | [] => Raise IndexError
      | cell :: _ => scan_rows rest (if eq_int cell 1 then true else table_exists)
      end
  end.

(** [check_table_exists]: after the [try], the [return] reads [msg], which
    only the handlers assign. *)
Definition check_table_exists (table_name : string) : Proc (string * string) :=
  ptry
    (let* test_results := execute (check_sql table_name) in
     let* table_exists := perform (lift (scan_rows test_results false)) in
     preturn "1")
    handle_failure
  ;;;
  praise (Builtin NameError).

End WithSession.
End SqlRun.

(** A session in which every statement is answered by one uploaded file,
    and one in which the driver rejects every statement. *)
Definition calm_session : SqlRun.session :=
  SqlRun.mk_session dba_ok
    (fun _ => inl [SqlOps.put_tuple_of uploaded_row])
    (fun _ => "error")
    (fun p => (p, EmptyString)).

Definition failing_session : SqlRun.session :=
  SqlRun.mk_session dba_ok
    (fun _ => inr (SqlRun.Driver (SqlRun.ProgrammingError "001003: syntax error")))
    (fun _ => "error")
    (fun p => (p, EmptyString)).

(** A session whose audit procedure answers -1 to every record. *)
Definition grumpy_session : SqlRun.session :=
  SqlRun.mk_session
    (SqlExec.mk_externals job_environ
       (fun _ => Common.Fetched [[Py.VInt (-1)]])
       (fun a b => a +:+ "/" +:+ b)
       (fun _ fs => inl (EmptyString, fs))
       (fun _ => "utf-8")
       (fun _ _ => Some "pyarrow.Table"))
    (fun _ => inl [SqlExec.tuple_of customers_row])
    (fun _ => "error")
    (fun p => (p, EmptyString)).

(** The keyword an option names: what the loop of [valid_put_options] takes
    from [option.strip().split("=")] when the unpacking succeeds. *)
Definition keyword_of (option : string) : Datatypes.option string :=
  match PyStr.split "=" (PyStr.strip option) with
  | [keyword; _] => Some (PyStr.strip keyword)
  | _ => None
  end.

Definition names_keyword (k option : string) : bool :=
  match keyword_of option with
  | Some keyword => String.eqb keyword k
  | None => false
  end.

(** ** More of arctyk_sql_exec.py: statements that move files out

    [copyinto_export] and [get] catch ProgrammingError only, and read the
    attributes of the error and of the cursor. *)
Module SqlExport.
Import Py Common SqlExec SqlOps SqlRun.
Local Open Scope proc_scope.

(** The attributes of a ProgrammingError, as an f-string prints them. *)
Record error_fields : Type := mk_error_fields {
  e_sfqid : string;
  e_sqlstate : string;
  e_errno : string;
  e_msg : string
}.

Record statement : Type := mk_statement {
  (** [crsr.sfqid] once the statement has run. *)
  sfqid : string;
  (** The attributes of the ProgrammingError whose [str] is given. *)
  fields_of : string -> error_fields
}.

Section WithStatement.
Context (ses : session) (stm : statement).

(** The handler of both functions; [what] is the message of the record. *)
Definition export_failure {A} (what text : string) : Proc A :=
  let sf_exe_error := fields_of stm text in
  debug ("sfqid " +:+ e_sfqid sf_exe_error) ;;;
  debug ("sqlstate " +:+ e_sqlstate sf_exe_error) ;;;
  debug ("errno " +:+ e_errno sf_exe_error) ;;;
  debug ("err_description " +:+ e_msg sf_exe_error) ;;;
  SqlRun.audit ses "E" what "db_code3"
    ("query id " +:+ e_sfqid sf_exe_error +:+ " - " +:+ e_msg sf_exe_error) ;;;
  exit_handler ses "-2" ("Snowflake SQL execution error: " +:+ e_msg sf_exe_error).

Definition copy_into_stmt (db_name db_schema export_stmt sf_stage file_fmt file_name
    copy_into_options : string) : string :=
  nl +:+ "COPY INTO @" +:+ db_name +:+ "." +:+ db_schema +:+ "." +:+ sf_stage +:+ "/"
  +:+ file_name +:+ nl
  +:+ "FROM (" +:+ export_stmt +:+ ")" +:+ nl
  +:+ copy_into_options +:+ nl
  +:+ "FILE_FORMAT = (FORMAT_NAME = " +:+ file_fmt +:+ ")".

Definition exported_to (db_name db_schema sf_stage file_name : string) : string :=
  db_name +:+ "." +:+ db_schema +:+ "." +:+ sf_stage +:+ "/" +:+ file_name.

(** The loop of [copyinto_export]; [bound] holds [ret_code], [ret_msg] and
    [row_counts] once the body has run. *)
Fixpoint export_rows (db_name db_schema sf_stage file_name : string)
    (results : list (list value)) (bound : option (string * string * list value))
  : Proc (option (string * string * list value)) :=
  match results with
  | [] => preturn bound
  | row_counts :: rest =>
      match row_counts with
      | _ :: _ :: cell :: _ =>
          let msg := "Copy Into for Export executed successfully" in
          let db_row_msg :=
            "Exported " +:+ str cell +:+ " rows to "
            +:+ exported_to db_name db_schema sf_stage file_name in
          SqlRun.audit ses "I" msg "db_code3" db_row_msg ;;;
          debug ("sfqid " +:+ sfqid stm +:+ " " +:+ db_row_msg) ;;;
          let ret_code := "1" in
          let ret_msg :=
            "Copy Into executed successfully for "
            +:+ exported_to db_name db_schema sf_stage file_name in
          export_rows db_name db_schema sf_stage file_name rest
                      (Some (ret_code, ret_msg, row_counts))
      | _ => praise (Builtin IndexError)
      end
  end.

(** [copyinto_export] *)
Definition copyinto_export (db_name db_schema export_stmt sf_stage file_fmt file_name
    copy_into_options : string) : Proc (string * string * value) :=
  let* bound :=
    ptry
      (let* results :=
         execute ses (copy_into_stmt db_name db_schema export_stmt sf_stage file_fmt
                                     file_name copy_into_options) in
       export_rows db_name db_schema sf_stage file_name results None)
      (fun f =>
         match f with
         | Driver (ProgrammingError text) =>
             export_failure "An error during COPY INTO for Export has been encountered"
                            text
         | _ => praise f
         end) in
  match bound with
  | None => praise (Builtin NameError)
  | Some (ret_code, ret_msg, row_counts) =>
      match row_counts with
      | _ :: _ :: cell :: _ => preturn (ret_code, ret_msg, cell)
      | _ => praise (Builtin IndexError)
      end
  end.

Definition get_sql (export_path file_name export_db export_folder export_schema
    get_options : string) : string :=
  "GET @" +:+ export_db +:+ "." +:+ export_folder +:+ "." +:+ export_schema +:+ "/"
  +:+ file_name +:+ " 'file://" +:+ export_path +:+ "'" +:+ nl
  +:+ "            " +:+ get_options.

Definition got_from (export_path file_name export_db export_folder export_schema
    : string) : string :=
  "Get " +:+ export_db +:+ "." +:+ export_folder +:+ "." +:+ export_schema +:+ "/"
  +:+ file_name +:+ " 'file://" +:+ export_path.

(** The loop of [get]; [bound] holds [ret_code] and [ret_msg] once the body
    has run. *)
Fixpoint get_rows (export_path file_name export_db export_folder export_schema : string)
    (results : list (list value)) (bound : option (string * string))
  : Proc (option (string * string)) :=
  match results with
  | [] => preturn bound
  | row_counts :: rest =>
      let msg := "Get for Export executed successfully" in
      let db_row_msg :=
        got_from export_path file_name export_db export_folder export_schema in
      SqlRun.audit ses "I" msg "db_code3" db_row_msg ;;;
      debug ("sfqid " +:+ sfqid stm) ;;;
      let ret_code := "1" in
      let ret_msg :=
        "GET executed successfully for " +:+ export_db +:+ "." +:+ export_folder
        +:+ "." +:+ export_schema +:+ "/" +:+ file_name in
      get_rows export_path file_name export_db export_folder export_schema rest
               (Some (ret_code, ret_msg))
  end.

(** [get] *)
Definition get (export_path file_name export_db export_folder export_schema
    get_options : string) : Proc (string * string) :=
  let export_path := fix_path export_path in
  let* bound :=
    ptry
      (let* results :=
         execute ses (get_sql export_path file_name export_db export_folder
                              export_schema get_options) in
       get_rows export_path file_name export_db export_folder export_schema results None)
      (fun f =>
         match f with
         | Driver (ProgrammingError text) =>
             export_failure "An error during the GET statement has been encountered" text
         | _ => praise f
         end) in
  match bound with
  | None => praise (Builtin NameError)
  | Some answer => preturn answer
  end.

End WithStatement.
End SqlExport.

(** A statement with a query id, and a session whose statements yield no
    rows. *)
Definition plain_statement : SqlExport.statement :=
  SqlExport.mk_statement "01b2"
    (fun text => SqlExport.mk_error_fields "01b2" "42000" "001003" text).

Definition silent_session : SqlRun.session :=
  SqlRun.mk_session dba_ok
    (fun _ => inl [])
    (fun _ => "error")
    (fun p => (p, EmptyString)).

Definition export_session : SqlRun.session :=
  SqlRun.mk_session dba_ok
    (fun _ => inl [[Py.VInt 1250; Py.VInt 4096; Py.VInt 8192]])
    (fun _ => "error")
    (fun p => (p, EmptyString)).

(** * Properties *)

(** ** Strings *)
Section StringFacts.
Import PyStr.

Lemma replace_backslash_step (c : ascii) (s : string) :
  replace_from "\" "/" O (String c s)
  = if Ascii.eqb c "\" then String "/" (replace_from "\" "/" O s)
    else String c (replace_from "\" "/" O s).
Proof.
  cbn [replace_from String.prefix].
  destruct (ascii_dec "\" c) as [<- | Hne].
  - now destruct s.
  - destruct (Ascii.eqb_spec c "\") as [-> | _]; [contradiction | reflexivity].
Qed.

Lemma replace_backslash_clean (s : string) :
  has_char "\" (replace "\" "/" s) = false.
Proof.
  unfold replace. induction s as [| c s IH].
  - reflexivity.
  - rewrite replace_backslash_step.
    destruct (Ascii.eqb_spec c "\") as [-> | Hne]; cbn [has_char].
    + exact IH.
    + rewrite IH, orb_false_r. now apply Ascii.eqb_neq.
Qed.

Lemma replace_backslash_id (s : string) :
  has_char "\" s = false -> replace "\" "/" s = s.
Proof.
  unfold replace. induction s as [| c s IH]; intros H.
  - reflexivity.
  - cbn [has_char] in H. apply orb_false_iff in H as [Hc Hs].
    rewrite replace_backslash_step, Hc, IH by assumption. reflexivity.
Qed.

Lemma rstrip_has_char (x : ascii) (s : string) :
  has_char x s = false -> has_char x (rstrip s) = false.
Proof.
  induction s as [| c s IH]; intros H.
  - reflexivity.
  - cbn [has_char] in H. apply orb_false_iff in H as [Hc Hs].
    cbn [rstrip]. destruct (is_space c && is_empty (rstrip s)).
    + reflexivity.
    + cbn [has_char]. now rewrite Hc, IH.
Qed.

Lemma rstrip_ends (s : string) : ends_with_space (rstrip s) = false.
Proof.
  unfold ends_with_space. induction s as [| c s IH].
  - reflexivity.
  - cbn [rstrip]. destruct (rstrip s) as [| d r] eqn:Er.
    + cbn [is_empty]. rewrite andb_true_r.
      destruct (is_space c) eqn:Ec; cbn [last_char]; [reflexivity | exact Ec].
    + cbn [is_empty]. rewrite andb_false_r. exact IH.
Qed.

Lemma rstrip_fixed (s : string) : ends_with_space s = false -> rstrip s = s.
Proof.
  unfold ends_with_space. induction s as [| c s IH]; intros H.
  - reflexivity.
  - cbn [rstrip]. destruct s as [| d r].
    + cbn in H |- *. now rewrite H.
    + rewrite IH by exact H.
      cbn [is_empty]. now rewrite andb_false_r.
Qed.

Lemma rstrip_idempotent (s : string) : rstrip (rstrip s) = rstrip s.
Proof. apply rstrip_fixed, rstrip_ends. Qed.

End StringFacts.

(** ** fix_path *)

(** C9: [fix_path] returns a path without backslash and without trailing
    whitespace, applying it twice is the same as applying it once, and the
    copies of the file-exec and sql-exec modules agree on every input. *)
Theorem fix_path_normalizes_and_is_idempotent (s : string) :
  PyStr.has_char "\" (FileExec.fix_path s) = false
  /\ PyStr.ends_with_space (FileExec.fix_path s) = false
  /\ FileExec.fix_path (FileExec.fix_path s) = FileExec.fix_path s
  /\ SqlExec.fix_path s = FileExec.fix_path s.
Proof.
  unfold SqlExec.fix_path, FileExec.fix_path.
  assert (Hclean : PyStr.has_char "\" (PyStr.rstrip (PyStr.replace "\" "/" s)) = false)
    by apply rstrip_has_char, replace_backslash_clean.
  repeat split.
  - exact Hclean.
  - apply rstrip_ends.
  - rewrite (replace_backslash_id _ Hclean). apply rstrip_idempotent.
Qed.

(** ** valid_put_options *)
Section PutOptions.
Import Py PyStr SqlExec.

Lemma split_length (sep : ascii) (s : string) :
  length (split sep s) = S (count_char sep s).
Proof.
  induction s as [| c s IH]; [reflexivity |].
  cbn [split count_char]. destruct (Ascii.eqb c sep).
  - cbn [length]. now rewrite IH.
  - destruct (split sep s) as [| h t]; [discriminate IH |].
    cbn [length] in *. exact IH.
Qed.

Lemma count_char_lstrip (x : ascii) (s : string) :
  is_space x = false -> count_char x (lstrip s) = count_char x s.
Proof.
  intros Hx. induction s as [| c s IH]; [reflexivity |].
  cbn [lstrip]. destruct (is_space c) eqn:Ec; [| reflexivity].
  rewrite IH. cbn [count_char].
  destruct (Ascii.eqb_spec c x) as [-> | _]; [congruence | reflexivity].
Qed.

Lemma count_char_rstrip (x : ascii) (s : string) :
  is_space x = false -> count_char x (rstrip s) = count_char x s.
Proof.
  intros Hx. induction s as [| c s IH]; [reflexivity |].
  cbn [rstrip]. destruct (is_space c) eqn:Ec; cbn [andb].
  - destruct (rstrip s) as [| d r] eqn:Er; cbn [is_empty].
    + cbn [count_char] in *. rewrite <- IH.
      destruct (Ascii.eqb_spec c x) as [-> | _]; [congruence | reflexivity].
    + cbn [count_char] in *. now rewrite IH.
  - cbn [count_char]. now rewrite IH.
Qed.

Lemma count_char_strip (x : ascii) (s : string) :
  is_space x = false -> count_char x (strip s) = count_char x s.
Proof.
  intros Hx. unfold strip. now rewrite count_char_rstrip, count_char_lstrip.
Qed.

(** The unpacking [keyword, argument = ...] fails unless there is exactly
    one equals sign. *)
Lemma check_option_malformed (option : string) (keyword_count : list (string * Z)) :
  count_char "=" option <> 1%nat ->
  check_option option keyword_count = Raise ValueError.
Proof.
  intros Hn. unfold check_option.
  pose proof (split_length "=" (strip option)) as Hl.
  rewrite count_char_strip in Hl by reflexivity.
  destruct (split "=" (strip option)) as [| k [| a [| b t]]]; cbn [length] in Hl;
    try reflexivity.
  exfalso. apply Hn. lia.
Qed.

(** Whether an option is passed over does not depend on the counts. *)
Lemma check_option_continue (option : string) (kc kc' : list (string * Z)) :
  (exists k, check_option option kc = Ok (Continue k)) ->
  exists k', check_option option kc' = Ok (Continue k').
Proof.
  unfold check_option. intros [k Hk].
  destruct (split "=" (strip option)) as [| kw [| a [| b t]]]; try discriminate.
  repeat match type of Hk with
         | context [if ?c then _ else _] => destruct c
         | context [match ?r with Ok _ => _ | Raise _ => _ end] => destruct r
         end; try discriminate; eauto.
Qed.

Lemma accepted_option_continue (option : string) (kc : list (string * Z)) :
  accepted_option option = true -> exists k, check_option option kc = Ok (Continue k).
Proof.
  unfold accepted_option. intros H. apply (check_option_continue option []).
  destruct (check_option option []) as [[k | a] | e]; try discriminate. eauto.
Qed.

Lemma check_options_first_malformed (pre post : list string) (bad : string)
    (kc : list (string * Z)) :
  forallb accepted_option pre = true ->
  count_char "=" bad <> 1%nat ->
  check_options (pre ++ bad :: post) kc = Raise ValueError.
Proof.
  revert kc. induction pre as [| o pre IH]; intros kc Hpre Hbad.
  - cbn [app check_options]. now rewrite check_option_malformed.
  - cbn [forallb] in Hpre. apply andb_true_iff in Hpre as [Ho Hpre].
    destruct (accepted_option_continue o kc Ho) as [k Hk].
    cbn [app check_options]. rewrite Hk. now apply IH.
Qed.

(** A rejection is the only answer the loop itself returns. *)
Lemma check_options_return (options : list string) (kc : list (string * Z))
    (answer : bool * string) :
  check_options options kc = Ok (Return answer) -> answer.1 = false.
Proof.
  revert kc. induction options as [| o options IH]; intros kc H; [discriminate |].
  cbn [check_options] in H.
  destruct (check_option o kc) as [[k | a] | e] eqn:Ho; try discriminate.
  - eauto.
  - injection H as <-. unfold check_option in Ho.
    destruct (split "=" (strip o)) as [| kw [| a' [| b t]]]; try discriminate.
    repeat match type of Ho with
           | context [if ?c then _ else _] => destruct c
           | context [match ?r with Ok _ => _ | Raise _ => _ end] => destruct r
           end; try discriminate; now injection Ho as <-.
Qed.

(** Whatever is accepted, the string handed back is built from the last
    option alone. *)
Lemma valid_put_options_accepts_last (s r : string) :
  valid_put_options (VStr s) = Ok (true, r) ->
  exists option, last (split "," (upper s)) = Some option
                 /\ r = replace "," "" option.
Proof.
  unfold valid_put_options. intros H.
  destruct (check_options (split "," (upper s)) []) as [[kc | a] | e] eqn:Hc;
    try discriminate.
  - destruct (List.find _ kc) as [[k n] |]; [discriminate |].
    destruct (last (split "," (upper s))) as [o |]; [| discriminate].
    injection H as <-. eauto.
  - apply check_options_return in Hc. injection H as ->. discriminate.
Qed.

(** C1: on ["PARALLEL=4,OVERWRITE=TRUE"] the options are accepted, but the
    string handed back is the last option only: [PARALLEL=4] is lost. *)
Theorem valid_put_options_returns_last_option_only :
  valid_put_options (VStr "PARALLEL=4,OVERWRITE=TRUE") = Ok (true, "OVERWRITE=TRUE").
Proof. reflexivity. Qed.

(** The other three inputs of the same sentence behave as described: an
    unknown keyword is rejected by name with the keyword set, OVERWRITE may
    repeat, PARALLEL may not. *)
Lemma valid_put_options_examples :
  valid_put_options (VStr "FOO=1")
  = Ok (false, "FOO is not a valid keyword. Valid keywords are: PARALLEL, OVERWRITE, AUTO_COMPRESS, SOURCE_COMPRESSION")
  /\ valid_put_options (VStr "OVERWRITE=TRUE,OVERWRITE=FALSE") = Ok (true, "OVERWRITE=FALSE")
  /\ valid_put_options (VStr "PARALLEL=1,PARALLEL=2") = Ok (false, "PARALLEL").
Proof. repeat split; reflexivity. Qed.

(** C10, as amended: the function raises ValueError at the unpacking step
    when the first element without exactly one equals sign is reached, that
    is, when every element before it is passed over; the default
    [OVERWRITE=FALSE] is taken for an argument that is not a string, while
    the empty string and a bare keyword raise. *)
Theorem valid_put_options_raises_at_first_malformed
    (s : string) (pre post : list string) (bad : string) :
  split "," (upper s) = pre ++ bad :: post ->
  count_char "=" bad <> 1%nat ->
  forallb accepted_option pre = true ->
  valid_put_options (VStr s) = Raise ValueError
  /\ valid_put_options VNone = Ok (true, "OVERWRITE=FALSE")
  /\ (forall z, valid_put_options (VInt z) = Ok (true, "OVERWRITE=FALSE"))
  /\ valid_put_options (VStr "") = Raise ValueError
  /\ valid_put_options (VStr "OVERWRITE") = Raise ValueError.
Proof.
  intros Hs Hbad Hpre. repeat split; try reflexivity.
  unfold valid_put_options. rewrite Hs.
  now rewrite check_options_first_malformed.
Qed.

Lemma valid_put_options_raises_at_first_malformed_witness :
  valid_put_options (VStr "overwrite=true,PARALLEL,x") = Raise ValueError.
Proof.
  apply (valid_put_options_raises_at_first_malformed
           "overwrite=true,PARALLEL,x" ["OVERWRITE=TRUE"] ["X"] "PARALLEL").
  - reflexivity.
  - cbn. lia.
  - reflexivity.
Defined.

(** C10, as stated, fails: an element without an equals sign does not make
    the function raise when an earlier element is rejected first. *)
Lemma valid_put_options_rejects_before_malformed :
  ~ (forall s : string,
        existsb (fun option => negb (count_char "=" option =? 1)%nat) (split "," s) = true ->
        exists e, valid_put_options (VStr s) = Raise e).
Proof.
  intros H. destruct (H "FOO=1,BAR" eq_refl) as [e He].
  vm_compute in He. discriminate He.
Qed.

End PutOptions.

(** ** ExitHandler *)
Section ExitStatus.
Import Py Common.

(** Without job variables the handler exits 0 and still prints the code and
    the message. *)
Lemma ExitHandler_develop (environ : gmap string string) (code : value) (msg : string) :
  environ !! "WSL_JOB_KEY" = None ->
  environ !! "WSL_JOB_NAME" = None ->
  ExitHandler environ code msg = mk_exit_report [str code; msg] [] [] 0.
Proof.
  intros Hk Hn. unfold ExitHandler. rewrite Hk, Hn. cbn.
  now destruct code.
Qed.

(** An integer code under a job: 1 becomes 0, any other is the status. *)
Lemma ExitHandler_integer_code (environ : gmap string string) (z : Z) (msg : string) :
  develop_run environ = false ->
  status (ExitHandler environ (VInt z) msg) = if z =? 1 then 0 else z.
Proof.
  unfold develop_run, ExitHandler. intros ->. cbn [eq_int].
  now destruct (z =? 1).
Qed.

(** A string code under a job is never equal to the integer 1: it reaches
    [sys.exit] as a string, which is printed and gives status 1. *)
Lemma ExitHandler_string_code (environ : gmap string string) (s msg : string) :
  develop_run environ = false ->
  status (ExitHandler environ (VStr s) msg) = 1
  /\ stderr (ExitHandler environ (VStr s) msg) = [s].
Proof.
  unfold develop_run, ExitHandler. intros ->. cbn. auto.
Qed.

(** C2: under a job, the success code ["1"] that the stages return is not
    mapped to status 0, and the error code ["-2"] is not propagated as -2:
    both leave the process with status 1. *)
Theorem ExitHandler_string_codes_exit_1 :
  status (ExitHandler job_environ (VStr "1") "Inserted 1,250 rows") = 1
  /\ stderr (ExitHandler job_environ (VStr "1") "Inserted 1,250 rows") = ["1"]
  /\ status (ExitHandler job_environ (VStr "-2") "Call to BCP failed") = 1.
Proof. repeat split; vm_compute; reflexivity. Qed.

End ExitStatus.

(** ** wait_for_file *)
Section FileArrival.
Import FileExec.
Context (os : os_path) (fs : file_system).

(** With enough fuel for the remaining wait, a loop that never sees the
    file ends in the answer of the timeout policy. *)
Lemma wait_loop_times_out (wait_response source_path : string) (wait_time : Z)
    (file_pattern wait_filename wait_file_extension : string) (start_time : Z) :
  (forall t, glob_glob fs t (polled_pattern os source_path wait_filename
                                            wait_file_extension) = []) ->
  forall (fuel : nat) (st : gate_state),
    (Z.to_nat (wait_time - (clock st - start_time)) < fuel)%nat ->
    (wait_loop os fs fuel wait_response source_path wait_time file_pattern
               wait_filename wait_file_extension start_time st).1
    = Some (let ret_msg :=
              "Checking for file Exist is True and Action when Wait Limit Reached is specified as "
              +:+ wait_response +:+ "." in
            if String.eqb wait_response "Error" then ("-2", ret_msg)
            else if String.eqb wait_response "Fatal Error" then ("-3", ret_msg)
            else if String.eqb wait_response "Warning" then ("-1", ret_msg)
            else ("-3", "Invalid wait_response value of " +:+ wait_response
                        +:+ " was specified and we reached the wait time limit")).
Proof.
  intros Hnever. induction fuel as [| fuel IH]; intros st Hfuel; [lia |].
  cbn [wait_loop]. unfold bind at 1. cbn [time_time].
  destruct (clock st - start_time <? wait_time) eqn:Hlt.
  - unfold bind at 1, find_files, bind at 1, glob. cbn [clock].
    fold (polled_pattern os source_path wait_filename wait_file_extension).
    rewrite Hnever. cbn [map truthy FileExec.ret]. cbn [truthy].
    unfold bind at 1, logging_debug, emit. cbn [clock].
    unfold bind at 1, time_sleep. cbn [clock].
    apply IH. cbn [clock]. apply Z.ltb_lt in Hlt. lia.
  - cbn.
    destruct (String.eqb wait_response "Error"); [reflexivity |].
    destruct (String.eqb wait_response "Fatal Error"); [reflexivity |].
    destruct (String.eqb wait_response "Warning"); reflexivity.
Qed.

(** C3: when the directory exists, the file never arrives and waiting is
    allowed, a timeout policy other than "Error" and "Warning" ends the wait
    in "-3"; unless the policy is the FatalError policy itself (spelled
    "Fatal Error"), the message says that the value was invalid. *)
Theorem wait_for_file_invalid_policy_is_fatal
    (fuel : nat) (check_exist wait_response source_path : string) (wait_time : Z)
    (trigger_file_pattern file_pattern : string) (st : gate_state) :
  path_exists fs (clock st) (fix_path source_path) = true ->
  (forall t, glob_glob fs t
               (polled_pattern os (fix_path source_path)
                  (set_wait_file os trigger_file_pattern file_pattern
                                 (fix_path source_path)).1
                  (set_wait_file os trigger_file_pattern file_pattern
                                 (fix_path source_path)).2) = []) ->
  check_exist <> "false" ->
  wait_response <> "Error" ->
  wait_response <> "Warning" ->
  (Z.to_nat wait_time < fuel)%nat ->
  exists ret_msg,
    (wait_for_file os fs fuel check_exist wait_response source_path wait_time
                   trigger_file_pattern file_pattern st).1
    = Some ("-3", ret_msg)
    /\ (wait_response <> "Fatal Error" ->
        ret_msg = "Invalid wait_response value of " +:+ wait_response
                  +:+ " was specified and we reached the wait time limit").
Proof.
  intros Hdir Hnever Hcheck Herr Hwarn Hfuel.
  unfold wait_for_file, bind at 1, os_path_exists. rewrite Hdir. cbn [negb].
  destruct (set_wait_file os trigger_file_pattern file_pattern (fix_path source_path))
    as [wait_filename wait_file_extension] eqn:Hset.
  cbn [fst snd] in Hnever.
  unfold bind at 1, logging_debug, emit. cbn [clock].
  unfold bind at 1. cbn [time_time clock].
  unfold bind at 1, find_files, bind at 1, glob. cbn [clock].
  fold (polled_pattern os (fix_path source_path) wait_filename wait_file_extension).
  rewrite Hnever. cbn [map truthy FileExec.ret]. cbn [truthy].
  apply String.eqb_neq in Hcheck, Herr, Hwarn. rewrite Hcheck.
  rewrite wait_loop_times_out by (try assumption; cbn [clock]; lia).
  rewrite Herr, Hwarn.
  destruct (String.eqb_spec wait_response "Fatal Error") as [-> | Hne].
  - eexists. split; [reflexivity | congruence].
  - eexists. split; [reflexivity | reflexivity].
Qed.

(** C4: when the source directory does not exist the gate answers "-3" at
    once: the only effects are the existence check of the directory and the
    log line, the clock has not moved (no sleep), no glob was run, and the
    answer is the same for any fuel, wait time, policy and patterns. *)
Theorem wait_for_file_missing_directory
    (fuel : nat) (check_exist wait_response source_path : string) (wait_time : Z)
    (trigger_file_pattern file_pattern : string) (st : gate_state) :
  path_exists fs (clock st) (fix_path source_path) = false ->
  wait_for_file os fs fuel check_exist wait_response source_path wait_time
                trigger_file_pattern file_pattern st
  = (Some ("-3", "Folder " +:+ fix_path source_path +:+ " was not found."),
     mk_gate_state (clock st)
       (trace st ++ [EvPathExists (fix_path source_path)]
                 ++ [EvLog ("Folder " +:+ fix_path source_path +:+ " was not found.")])).
Proof.
  intros Hdir.
  unfold wait_for_file, bind at 1, os_path_exists. rewrite Hdir. cbn [negb].
  unfold bind, logging_debug, emit, FileExec.ret. cbn [clock trace].
  now rewrite <- app_assoc.
Qed.

End FileArrival.

Lemma wait_for_file_invalid_policy_is_fatal_witness :
  exists ret_msg,
    (FileExec.wait_for_file plain_os idle_fs 13 "true" "Retry" "C:\in\ " 12 "" "a.csv"
                            fresh_gate).1
    = Some ("-3", ret_msg)
    /\ ("Retry" <> "Fatal Error" ->
        ret_msg = "Invalid wait_response value of Retry was specified and we reached the wait time limit").
Proof.
  apply (wait_for_file_invalid_policy_is_fatal plain_os idle_fs 13 "true" "Retry"
           "C:\in\ " 12 "" "a.csv" fresh_gate).
  - reflexivity.
  - intros t. reflexivity.
  - discriminate.
  - discriminate.
  - discriminate.
  - vm_compute. lia.
Defined.

Lemma wait_for_file_missing_directory_witness :
  FileExec.wait_for_file plain_os no_directory_fs 0 "true" "Error" "C:\in\ " 60 "" "a.csv"
                         fresh_gate
  = (Some ("-3", "Folder C:/in/ was not found."),
     FileExec.mk_gate_state 0
       [FileExec.EvPathExists "C:/in/"; FileExec.EvLog "Folder C:/in/ was not found."]).
Proof.
  apply (wait_for_file_missing_directory plain_os no_directory_fs 0 "true" "Error"
           "C:\in\ " 60 "" "a.csv" fresh_gate).
  reflexivity.
Defined.

(** ** The compressor *)
Section Compressor.
Import Py FileExec.

Lemma chunks_concat {A} (N : nat) (l : list A) (cnt : nat) :
  concat (map (fun k => take N (drop (k * N) l)) (seq 0 cnt)) = take (cnt * N) l.
Proof.
  induction cnt as [| c IH]; [reflexivity |].
  rewrite seq_S, map_app, concat_app, IH. cbn [map concat Nat.add].
  rewrite app_nil_r, take_take_drop. f_equal. lia.
Qed.

Lemma slice_chunk {A} (l : list A) (i n : Z) :
  0 <= i -> 0 < n ->
  slice l i (i + n) = take (Z.to_nat n) (drop (Z.to_nat i) l).
Proof.
  intros Hi Hn. unfold slice, clamp_index.
  destruct (i <? 0) eqn:E1; [apply Z.ltb_lt in E1; lia |].
  destruct (i + n <? 0) eqn:E2; [apply Z.ltb_lt in E2; lia |].
  destruct (Z_le_gt_dec i (Z.of_nat (length l))) as [Hle | Hgt].
  - rewrite (Z.min_r _ i), (Z.max_r 0 i) by lia.
    destruct (Z_le_gt_dec (i + n) (Z.of_nat (length l))) as [Hle' | Hgt'].
    + rewrite Z.min_r, Z.max_r by lia. do 2 f_equal. lia.
    + rewrite Z.min_l, Z.max_r by lia.
      rewrite !take_ge; [reflexivity | |]; rewrite length_drop; lia.
  - rewrite !Z.min_l, !Z.max_r by lia.
    rewrite Z.sub_diag, take_0, (drop_ge l (Z.to_nat i)) by lia.
    now rewrite take_nil.
Qed.

(** The batches are the consecutive windows of width [n] over the list. *)
Lemma batches_are_windows {A} (l : list A) (n : Z) :
  0 < n ->
  exists starts,
    range 0 (Z.of_nat (length l)) n = Ok starts
    /\ map (fun i => slice l i (i + n)) starts
       = map (fun k => take (Z.to_nat n) (drop (k * Z.to_nat n) l))
             (seq 0 (Z.to_nat ((Z.of_nat (length l) + n - 1) / n))).
Proof.
  intros Hn. unfold range, range_len.
  destruct (n =? 0) eqn:E0; [apply Z.eqb_eq in E0; lia |].
  destruct (0 <? n) eqn:E1; [| apply Z.ltb_ge in E1; lia].
  rewrite Z.sub_0_r. eexists. split; [reflexivity |].
  rewrite map_map. apply map_ext. intros k.
  rewrite slice_chunk by lia. do 2 f_equal. lia.
Qed.

Lemma window_count (len n : Z) :
  0 <= len -> 0 < n ->
  let cnt := (len + n - 1) / n in
  0 <= cnt /\ len <= cnt * n /\ (cnt - 1) * n < len.
Proof.
  intros Hlen Hn cnt.
  pose proof (Z.div_mod (len + n - 1) n ltac:(lia)) as Hdm.
  pose proof (Z.mod_pos_bound (len + n - 1) n Hn) as Hr.
  fold cnt in Hdm. split; [apply Z.div_pos; lia | nia].
Qed.

Lemma windows_lengths {B} (f : nat -> list B) (len N cnt : nat) :
  (0 < N)%nat ->
  (forall k, length (f k) = Nat.min N (len - k * N)) ->
  (forall c, cnt = S c -> (c * N < len)%nat) ->
  Forall (fun b : list B => (0 < length b <= N)%nat) (map f (seq 0 cnt))
  /\ Forall (fun b : list B => length b = N) (removelast (map f (seq 0 cnt))).
Proof.
  intros HN Hf Hcnt. split.
  - apply List.Forall_map, Forall_forall. intros k Hk. apply elem_of_seq in Hk.
    rewrite Hf. destruct cnt as [| c]; [lia |]. specialize (Hcnt c eq_refl). nia.
  - destruct cnt as [| c]; [constructor |]. specialize (Hcnt c eq_refl).
    rewrite seq_S, map_app. cbn [map]. rewrite removelast_last.
    apply List.Forall_map, Forall_forall. intros k Hk. apply elem_of_seq in Hk.
    rewrite Hf. nia.
Qed.

Section WithSystem.
Context (os : os_path) (fs : file_system).

(** The batches handed to the process pool, one window of the file list
    after the other. *)
Lemma compress_files_in_folder_windows
    (compress_method source_path has_header file_pattern files_per_batch : string)
    (n : Z) :
  files_per_batch_int files_per_batch = Some n ->
  0 < n ->
  compress_files_in_folder os fs compress_method source_path has_header
                           file_pattern files_per_batch
  = Ok (map (fun k =>
               compress_files_concurrently compress_method
                 (take (Z.to_nat n)
                       (drop (k * Z.to_nat n)
                             (matching_files os fs (fix_path source_path) file_pattern)))
                 (fix_path source_path) has_header)
            (seq 0 (Z.to_nat
                      ((Z.of_nat (length (matching_files os fs (fix_path source_path)
                                                         file_pattern)) + n - 1) / n)))).
Proof.
  intros Hint Hn. unfold compress_files_in_folder. rewrite Hint.
  destruct (batches_are_windows
              (matching_files os fs (fix_path source_path) file_pattern) n Hn)
    as (starts & -> & Hwin).
  rewrite Hwin, map_map. reflexivity.
Qed.

Lemma filenames_of_batch (compress_method : string) (file_list : list string)
    (source_path has_header : string) :
  map t_filename
      (compress_files_concurrently compress_method file_list source_path has_header)
  = file_list.
Proof.
  unfold compress_files_concurrently. rewrite map_map. cbn [t_filename]. apply map_id.
Qed.

(** C8: with a positive batch size, the batches are consecutive pieces of
    the list of matching files in enumeration order: joined together they
    give back the list, none is empty or longer than the batch size, all but
    the last have exactly the batch size, five files in batches of two give
    sizes 2, 2 and 1, and the empty string stands for a batch size of 1. *)
Theorem compress_files_in_folder_batches
    (compress_method source_path has_header file_pattern files_per_batch : string)
    (n : Z) :
  files_per_batch_int files_per_batch = Some n ->
  0 < n ->
  exists batches,
    compress_files_in_folder os fs compress_method source_path has_header
                             file_pattern files_per_batch = Ok batches
    /\ concat (map (map t_filename) batches)
       = matching_files os fs (fix_path source_path) file_pattern
    /\ Forall (fun b : list task => (0 < length b <= Z.to_nat n)%nat) batches
    /\ Forall (fun b : list task => length b = Z.to_nat n) (removelast batches)
    /\ (length (matching_files os fs (fix_path source_path) file_pattern) = 5%nat ->
        n = 2 -> map (fun b : list task => length b) batches = [2; 2; 1]%nat)
    /\ files_per_batch_int "2" = Some 2
    /\ files_per_batch_int "" = Some 1.
Proof.
  intros Hint Hn.
  rewrite (compress_files_in_folder_windows _ _ _ _ _ n Hint Hn).
  set (l := matching_files os fs (fix_path source_path) file_pattern).
  set (N := Z.to_nat n).
  set (cnt := Z.to_nat ((Z.of_nat (length l) + n - 1) / n)).
  destruct (window_count (Z.of_nat (length l)) n ltac:(lia) Hn) as (Hc0 & Hhi & Hlo).
  assert (Hnames :
    map (map t_filename)
        (map (fun k => compress_files_concurrently compress_method
                         (take N (drop (k * N) l)) (fix_path source_path) has_header)
             (seq 0 cnt))
    = map (fun k => take N (drop (k * N) l)) (seq 0 cnt)).
  { rewrite map_map. apply map_ext. intros k. apply filenames_of_batch. }
  assert (Hsizes :
    map (fun b : list task => length b)
        (map (fun k => compress_files_concurrently compress_method
                         (take N (drop (k * N) l)) (fix_path source_path) has_header)
             (seq 0 cnt))
    = map (fun b : list string => length b)
          (map (fun k => take N (drop (k * N) l)) (seq 0 cnt))).
  { rewrite !map_map. apply map_ext. intros k.
    unfold compress_files_concurrently. apply length_map. }
  destruct (windows_lengths
              (fun k => compress_files_concurrently compress_method
                          (take N (drop (k * N) l)) (fix_path source_path) has_header)
              (length l) N cnt) as [Hall Hinit].
  { subst N. lia. }
  { intros k. unfold compress_files_concurrently.
    now rewrite length_map, length_take, length_drop. }
  { intros c Hc. subst N cnt. apply Nat2Z.inj_lt.
    rewrite Nat2Z.inj_mul, Z2Nat.id by lia. nia. }
  eexists. split; [reflexivity |]. repeat split.
  - rewrite Hnames, chunks_concat. apply take_ge. subst N cnt.
    apply Nat2Z.inj_le. rewrite Nat2Z.inj_mul, !Z2Nat.id by lia. lia.
  - exact Hall.
  - exact Hinit.
  - intros Hlen ->. rewrite Hsizes. subst cnt N. rewrite Hlen.
    change (Z.to_nat ((Z.of_nat 5 + 2 - 1) / 2)) with 3%nat.
    cbn [seq map]. rewrite !length_take, !length_drop, Hlen. reflexivity.
Qed.

(** A batch size that is not a number or is zero raises ValueError; a
    negative one gives no batch at all. *)
Lemma compress_files_in_folder_other_sizes
    (compress_method source_path has_header file_pattern : string) :
  compress_files_in_folder os fs compress_method source_path has_header
                           file_pattern "two" = Raise ValueError
  /\ compress_files_in_folder os fs compress_method source_path has_header
                              file_pattern "0" = Raise ValueError
  /\ compress_files_in_folder os fs compress_method source_path has_header
                              file_pattern "-1" = Ok [].
Proof.
  unfold compress_files_in_folder.
  change (files_per_batch_int "two") with (@None Z).
  change (files_per_batch_int "0") with (Some 0).
  change (files_per_batch_int "-1") with (Some (-1)).
  repeat split. unfold range, range_len. cbn [Z.eqb Z.ltb Z.compare].
  set (len := Z.of_nat _).
  replace (Z.to_nat ((0 - len - -1 - 1) / - -1)) with 0%nat; [reflexivity |].
  cbn [Z.opp]. rewrite Z.div_1_r. lia.
Qed.

(** The gzip branch: the input is compressed into the same path with
    [.gz] appended, whatever the case of the method name. *)
Lemma compress_file_gzip
    (filename source_path has_header separator quote_char compress_method : string) :
  PyStr.lower compress_method = "gzip" ->
  compress_file os filename source_path has_header separator quote_char compress_method
  = [OpMakedirs (path_dirname os (path_join os source_path filename +:+ ".gz"));
     OpGzip (path_join os source_path filename)
            (path_join os source_path filename +:+ ".gz")].
Proof. intros H. unfold compress_file. now rewrite H. Qed.

(** Any other method: a log line and no file operation. *)
Lemma compress_file_other_method
    (filename source_path has_header separator quote_char compress_method : string) :
  PyStr.lower compress_method <> "gzip" ->
  PyStr.lower compress_method <> "parquet" ->
  compress_file os filename source_path has_header separator quote_char compress_method
  = [OpLog "No compression method specified - exiting"].
Proof.
  intros Hg Hp. unfold compress_file.
  apply String.eqb_neq in Hg, Hp. now rewrite Hg, Hp.
Qed.

(** C5: every call submitted for a batch carries the sentinels chr(18) and
    chr(17), yet the parquet branch reads the file with a comma as separator
    and the double quote as quote character. *)
Theorem compress_file_parquet_ignores_sentinels
    (file_list : list string) (source_path has_header : string) :
  Forall (fun t => t_separator t = PyStr.chr 18 /\ t_quote_char t = PyStr.chr 17)
         (compress_files_concurrently "parquet" file_list source_path has_header)
  /\ map (run_task os)
         (compress_files_concurrently "parquet" file_list source_path has_header)
     = map (fun filename =>
              [OpReadCsv (path_join os source_path filename)
                         (String.eqb (PyStr.lower has_header) "true")
                         "," (PyStr.chr 34);
               OpWriteParquet
                 (path_join os source_path
                            ((path_splitext os filename).1 +:+ ".parquet"))])
           file_list.
Proof.
  unfold compress_files_concurrently. split.
  - apply List.Forall_map, Forall_forall. intros filename _. cbn. auto.
  - rewrite map_map. apply map_ext. intros filename. reflexivity.
Qed.

End WithSystem.
End Compressor.

Lemma compress_files_in_folder_batches_witness :
  exists batches,
    FileExec.compress_files_in_folder plain_os five_files_fs "gzip" "C:\data " "false"
                                      "*.csv" "2" = Py.Ok batches
    /\ map (map FileExec.t_filename) batches
       = [["C:/data/a.csv"; "C:/data/b.csv"]; ["C:/data/c.csv"; "C:/data/d.csv"];
          ["C:/data/e.csv"]].
Proof.
  destruct (compress_files_in_folder_batches plain_os five_files_fs "gzip" "C:\data "
              "false" "*.csv" "2" 2) as (batches & Hrun & _).
  - reflexivity.
  - lia.
  - exists batches. split; [exact Hrun |].
    vm_compute in Hrun. injection Hrun as <-. reflexivity.
Defined.

(** ** The ODBC extractor and its temporary files *)
Section TemporaryFiles.
Import Py Common SqlExec.

(** [delete_file] always returns; on a missing file it only logs. *)
Lemma delete_file_returns (filename : string) (w : world) :
  exists w', delete_file filename w = (Ok tt, w').
Proof. unfold delete_file. destruct (decide (filename ∈ files w)); eauto. Qed.

Lemma delete_file_absent (filename : string) (w : world) :
  filename ∉ files w ->
  delete_file filename w
  = (Ok tt, mk_world (files w) (audit w)
              (logs w ++ ["The Delete_file function did not find temporary file: "
                          +:+ filename])).
Proof. intros H. unfold delete_file. now destruct (decide (filename ∈ files w)). Qed.

(** Called with its own parameter name the function runs; called with the
    keyword [sql_filename] the call itself is a TypeError and nothing is
    deleted. *)
Lemma call_delete_file_by_name (filename : string) (w : world) :
  call_delete_file [("filename", filename)] w = delete_file filename w.
Proof.
  unfold call_delete_file, Common.bind, lift. cbn.
  now destruct (delete_file filename w) as [[[] | e] w'].
Qed.

Lemma call_delete_file_wrong_keyword (filename : string) (w : world) :
  call_delete_file [("sql_filename", filename)] w = (Raise TypeError, w).
Proof. reflexivity. Qed.

(** C6: when the tool and the conversion both succeed, the extractor does
    not return: the first [delete_file(sql_filename=...)] raises TypeError,
    and every file the tool left behind is still there, next to the parquet
    file. *)
Theorem extract_odbc_dba_delete_raises (ext : externals)
    (extract_sql load_table work_dir source_dsn dsn_arch user password : string)
    (w : world) (stdout : string) (files_after : gset string) (table : string) :
  subprocess_run ext
    (dba_command dsn_arch source_dsn user password
       (os_path_join ext work_dir load_table +:+ ".sql_tmp")
       (os_path_join ext work_dir load_table +:+ ".dat"))
    ({[os_path_join ext work_dir load_table +:+ ".sql_tmp"]} ∪ files w)
  = inl (stdout, files_after) ->
  os_path_join ext work_dir load_table +:+ ".dat" ∈ files_after ->
  read_csv ext (os_path_join ext work_dir load_table +:+ ".dat")
           (chardet_detect ext (os_path_join ext work_dir load_table +:+ ".dat"))
  = Some table ->
  exists w',
    extract_odbc_dba ext extract_sql load_table work_dir source_dsn dsn_arch
                     user password w = (Raise TypeError, w')
    /\ files w' = {[os_path_join ext work_dir load_table +:+ ".parquet"]} ∪ files_after.
Proof.
  intros Hrun Hdata Hcsv.
  unfold extract_odbc_dba, write_sql_to_file, run_process, logging_debug,
    set_files, audit_log, AuditLog, open_read, write_table, Common.bind, lift.
  cbn [files audit logs]. rewrite Hrun. cbn [files audit logs].
  destruct (decide (os_path_join ext work_dir load_table +:+ ".dat" ∈ files_after));
    [| contradiction].
  rewrite Hcsv. cbn [files audit logs].
  rewrite call_delete_file_wrong_keyword. eauto.
Qed.

Lemma extract_odbc_dba_delete_raises_witness :
  exists w',
    extract_odbc_dba dba_ok "select * from customers" "CUSTOMERS" "C:/work" "SRC" "64"
                     "etl" "secret" empty_world = (Raise TypeError, w')
    /\ files w' = {["C:/work/CUSTOMERS.parquet"]}
                  ∪ ({["C:/work/CUSTOMERS.dat"]} ∪ ({["C:/work/CUSTOMERS.sql_tmp"]} ∪ ∅)).
Proof.
  apply (extract_odbc_dba_delete_raises dba_ok "select * from customers" "CUSTOMERS"
           "C:/work" "SRC" "64" "etl" "secret" empty_world EmptyString
           ({["C:/work/CUSTOMERS.dat"]} ∪ ({["C:/work/CUSTOMERS.sql_tmp"]} ∪ ∅))
           "pyarrow.Table").
  - reflexivity.
  - apply elem_of_union_l, elem_of_singleton. reflexivity.
  - reflexivity.
Defined.

End TemporaryFiles.

(** ** The loader's aggregation *)
Section CopyIntoMessage.
Import Py Common SqlExec.
Context (ext : externals).

Lemma bind_lift {A B} (r : result A) (k : A -> Eff B) (w : world) :
  Common.bind (lift r) k w
  = match r with
    | Ok a => k a w
    | Raise e => (Raise e, w)
    end.
Proof. now destruct r. Qed.

Lemma bind_audit_log {B} (status_code message db_code db_message : string)
    (k : audit_answer -> Eff B) (w : world) :
  Common.bind (audit_log ext status_code message db_code db_message) k w
  = k (WsWrkAudit ext
         (audit_record_of (environ ext) status_code message db_code db_message))
      (mk_world (files w)
                (audit w ++ [audit_record_of (environ ext) status_code message
                                             db_code db_message])
                (logs w)).
Proof. reflexivity. Qed.

(** Response rows that unpack into the ten fields are audited one by one
    and added up. *)
Lemma copyinto_rows_file_rows (rows : list file_row) :
  forall (rows_loaded_sum files_loaded_count : Z) (w : world),
    copyinto_rows ext (map tuple_of rows) rows_loaded_sum files_loaded_count w
    = (Ok (rows_loaded_sum + total_rows_loaded rows,
           files_loaded_count + Z.of_nat (length rows)),
       mk_world (files w) (audit w ++ map (row_event (environ ext)) rows) (logs w)).
Proof.
  induction rows as [| r rows IH]; intros s c [fs au lg].
  - cbn. now rewrite !Z.add_0_r, app_nil_r.
  - cbn [map copyinto_rows tuple_of].
    rewrite bind_lift. cbn [format_comma].
    rewrite bind_audit_log. cbn beta. rewrite bind_lift, IH.
    cbn [files audit logs total_rows_loaded fold_right length str].
    fold (row_event (environ ext) r). fold (total_rows_loaded rows).
    rewrite <- app_assoc. cbn [app]. do 3 f_equal; lia.
Qed.

(** A one-column status row after such rows stops the loop with
    ValueError. *)
Lemma copyinto_rows_status_row (pre : list file_row) (status_text : string)
    (post : list (list value)) :
  forall (rows_loaded_sum files_loaded_count : Z) (w : world),
    copyinto_rows ext (map tuple_of pre ++ [VStr status_text] :: post)
                  rows_loaded_sum files_loaded_count w
    = (Raise ValueError,
       mk_world (files w) (audit w ++ map (row_event (environ ext)) pre) (logs w)).
Proof.
  induction pre as [| r pre IH]; intros s c [fs au lg].
  - cbn. now rewrite app_nil_r.
  - cbn [map app copyinto_rows tuple_of].
    rewrite bind_lift. cbn [format_comma].
    rewrite bind_audit_log. cbn beta. rewrite bind_lift, IH.
    cbn [files audit logs str].
    fold (row_event (environ ext) r).
    rewrite <- app_assoc. reflexivity.
Qed.

(** Whatever the response, the loop only appends per-row records, and it
    can only raise ValueError or TypeError. *)
Lemma copyinto_rows_trail (results : list (list value)) :
  forall (rows_loaded_sum files_loaded_count : Z) (w : world),
  exists evs,
    (copyinto_rows ext results rows_loaded_sum files_loaded_count w).2
    = mk_world (files w) (audit w ++ evs) (logs w)
    /\ Forall (fun e => a_message e = "Copy Into executed successfully") evs
    /\ match (copyinto_rows ext results rows_loaded_sum files_loaded_count w).1 with
       | Ok _ => True
       | Raise e => e = ValueError \/ e = TypeError
       end.
Proof.
  induction results as [| row results IH]; intros s c [fs au lg].
  - exists []. cbn. rewrite app_nil_r. auto.
  - cbn [copyinto_rows].
    destruct row as [| f0 [| f1 [| f2 [| f3 [| f4 [| f5 [| f6 [| f7 [| f8 [| f9 [| f10 row]]]]]]]]]]];
      try solve [exists []; cbn; rewrite app_nil_r; auto].
    rewrite bind_lift.
    destruct f3 as [z | t |]; cbn [format_comma];
      try solve [exists []; cbn; rewrite app_nil_r; auto].
    rewrite bind_audit_log. cbn beta. rewrite bind_lift. cbn [files audit logs].
    match goal with
    | |- context [copyinto_rows ext results ?s' ?c' ?w'] =>
        destruct (IH s' c' w') as (evs & Hw & Hevs & Hr)
    end.
    cbn [files audit logs] in Hw.
    eexists (_ :: evs). rewrite Hw. split; [| split].
    + rewrite <- app_assoc. reflexivity.
    + constructor; [reflexivity | exact Hevs].
    + exact Hr.
Qed.

(** Every path through the loader: either the row loop raised TypeError,
    or the trail ends with the one summary record. *)
Lemma crt_copyinto_message_paths (results : list (list value)) (w : world) :
  exists r w',
    crt_copyinto_message ext results w = (r, w')
    /\ (r = Raise TypeError
        \/ exists evs rows_loaded_sum files_loaded_count,
             audit w' = audit w ++ evs
                                ++ [summary_event (environ ext) rows_loaded_sum
                                                  files_loaded_count]
             /\ Forall (fun e => a_message e <> "CopyInto phase of script is done")
                       evs).
Proof.
  destruct w as [fs au lg]. unfold crt_copyinto_message.
  unfold Common.bind at 1. unfold try_except.
  destruct (copyinto_rows_trail results 0 0 (mk_world fs au lg))
    as (evs & Hw & Hevs & Hr).
  destruct (copyinto_rows ext results 0 0 (mk_world fs au lg)) as [[[s c] | e] w1].
  - cbn [fst snd] in Hw |- *. subst w1.
    rewrite bind_audit_log. cbn beta. rewrite bind_lift. cbn [files audit logs].
    destruct (first_cell _); (do 2 eexists; split; [reflexivity |]);
      right; exists evs, s, c; (split; [cbn [audit]; now rewrite <- app_assoc |]);
      (eapply Forall_impl; [exact Hevs |]); cbn beta; intros e' ->; discriminate.
  - cbn [fst snd] in Hw, Hr. subst w1. destruct Hr as [-> | ->].
    + unfold Common.bind at 1. unfold logging_debug. cbn [files audit logs].
      rewrite bind_audit_log. cbn beta. cbn [Common.ret fst snd files audit logs].
      rewrite bind_audit_log. cbn beta. rewrite bind_lift. cbn [files audit logs].
      destruct (first_cell _); (do 2 eexists; split; [reflexivity |]);
        right; exists (evs ++ [no_rows_event (environ ext)]), 0, 0;
        (split; [cbn [audit]; now rewrite <- !app_assoc |]);
        apply Forall_app; (split; [| constructor; [discriminate | constructor]]);
        (eapply Forall_impl; [exact Hevs |]); cbn beta; intros e' ->; discriminate.
    + do 2 eexists. split; [reflexivity |]. now left.
Qed.


End CopyIntoMessage.


(** ** The built-ins on sample inputs *)
Section BuiltinExamples.
Import PyStr.

Example upper_mixed : upper "parallel=4,Overwrite=true" = "PARALLEL=4,OVERWRITE=TRUE".
Proof. reflexivity. Qed.

Example split_commas : split "," "a,,b" = ["a"; ""; "b"] /\ split "," "" = [""].
Proof. split; reflexivity. Qed.

Example replace_substring : replace "ab" "X" "aabab_ab" = "aXX_X".
Proof. reflexivity. Qed.

Example format_thousands_samples :
  format_thousands 1250 = "1,250" /\ format_thousands (-1234567) = "-1,234,567"
  /\ format_thousands 0 = "0" /\ format_thousands 999 = "999"
  /\ format_thousands 100000 = "100,000".
Proof. repeat split; reflexivity. Qed.

Example int_of_str_samples :
  int_of_str " 1_0 " = Some 10 /\ int_of_str "" = None
  /\ int_of_str "-2" = Some (-2) /\ int_of_str "2_" = None /\ int_of_str "two" = None.
Proof. repeat split; reflexivity. Qed.

Example strip_samples : strip "  a b  " = "a b" /\ rstrip "   " = "".
Proof. split; reflexivity. Qed.

Example range_samples :
  Py.range 0 5 2 = Py.Ok [0; 2; 4] /\ Py.range 0 5 0 = Py.Raise Py.ValueError
  /\ Py.range 0 5 (-1) = Py.Ok [] /\ Py.range 5 0 (-2) = Py.Ok [5; 3; 1].
Proof. repeat split; reflexivity. Qed.

Example slice_samples :
  Py.slice [1; 2; 3; 4; 5] 4 6 = [5] /\ Py.slice [1; 2; 3; 4; 5] (-2) 9 = [4; 5].
Proof. split; reflexivity. Qed.

End BuiltinExamples.

(** * Further properties *)

(** ** More on the file-arrival gate *)
Section FileArrivalMore.
Import FileExec.
Context (os : os_path) (fs : file_system).

(** X1: a file that is there at the first check is reported at once: the
    gate answers "1" after one glob, without a sleep and whatever the wait
    time, the policy and the fuel are. *)
Theorem wait_for_file_present_at_call
    (fuel : nat) (check_exist wait_response source_path : string) (wait_time : Z)
    (trigger_file_pattern file_pattern : string) (st : gate_state) :
  path_exists fs (clock st) (fix_path source_path) = true ->
  glob_glob fs (clock st)
    (polled_pattern os (fix_path source_path)
       (set_wait_file os trigger_file_pattern file_pattern (fix_path source_path)).1
       (set_wait_file os trigger_file_pattern file_pattern (fix_path source_path)).2)
  <> [] ->
  wait_for_file os fs fuel check_exist wait_response source_path wait_time
                trigger_file_pattern file_pattern st
  = (Some ("1", "File "
               +:+ (set_wait_file os trigger_file_pattern file_pattern
                                  (fix_path source_path)).1
               +:+ " was found."),
     mk_gate_state (clock st)
       (trace st
        ++ [EvPathExists (fix_path source_path);
            EvLog ("Wait time for "
                   +:+ (set_wait_file os trigger_file_pattern file_pattern
                                      (fix_path source_path)).1
                   +:+ " is " +:+ PyStr.str_of_Z wait_time +:+ " seconds");
            EvTime;
            EvGlob (polled_pattern os (fix_path source_path)
                      (set_wait_file os trigger_file_pattern file_pattern
                                     (fix_path source_path)).1
                      (set_wait_file os trigger_file_pattern file_pattern
                                     (fix_path source_path)).2);
            EvLog ("File "
                   +:+ (set_wait_file os trigger_file_pattern file_pattern
                                      (fix_path source_path)).1
                   +:+ " was found.")])).
Proof.
  intros Hdir Hfound.
  unfold wait_for_file, bind at 1, os_path_exists. rewrite Hdir. cbn [negb].
  destruct (set_wait_file os trigger_file_pattern file_pattern (fix_path source_path))
    as [wait_filename wait_file_extension] eqn:Hset.
  cbn [fst snd] in Hfound |- *.
  unfold bind at 1, logging_debug, emit. cbn [clock trace].
  unfold bind at 1. cbn [time_time clock trace].
  unfold bind at 1, find_files, bind at 1, glob. cbn [clock trace].
  fold (polled_pattern os (fix_path source_path) wait_filename wait_file_extension).
  destruct (glob_glob fs (clock st)
              (polled_pattern os (fix_path source_path) wait_filename
                              wait_file_extension)) as [| f files];
    [contradiction |].
  cbn [map truthy FileExec.ret].
  unfold bind, FileExec.ret. cbn [clock trace].
  rewrite <- !app_assoc. reflexivity.
Qed.

(** X2: with check_exist = "false" an absent file is fatal at once: "-3"
    after one glob, without a sleep, whatever the wait time and the fuel. *)
Theorem wait_for_file_must_exist
    (fuel : nat) (wait_response source_path : string) (wait_time : Z)
    (trigger_file_pattern file_pattern : string) (st : gate_state) :
  path_exists fs (clock st) (fix_path source_path) = true ->
  glob_glob fs (clock st)
    (polled_pattern os (fix_path source_path)
       (set_wait_file os trigger_file_pattern file_pattern (fix_path source_path)).1
       (set_wait_file os trigger_file_pattern file_pattern (fix_path source_path)).2)
  = [] ->
  wait_for_file os fs fuel "false" wait_response source_path wait_time
                trigger_file_pattern file_pattern st
  = (Some ("-3", "File "
                 +:+ (set_wait_file os trigger_file_pattern file_pattern
                                    (fix_path source_path)).1
                 +:+ (set_wait_file os trigger_file_pattern file_pattern
                                    (fix_path source_path)).2
                 +:+ " was not found with check_exist = false in "
                 +:+ fix_path source_path +:+ "."),
     mk_gate_state (clock st)
       (trace st
        ++ [EvPathExists (fix_path source_path);
            EvLog ("Wait time for "
                   +:+ (set_wait_file os trigger_file_pattern file_pattern
                                      (fix_path source_path)).1
                   +:+ " is " +:+ PyStr.str_of_Z wait_time +:+ " seconds");
            EvTime;
            EvGlob (polled_pattern os (fix_path source_path)
                      (set_wait_file os trigger_file_pattern file_pattern
                                     (fix_path source_path)).1
                      (set_wait_file os trigger_file_pattern file_pattern
                                     (fix_path source_path)).2);
            EvLog ("File "
                   +:+ (set_wait_file os trigger_file_pattern file_pattern
                                      (fix_path source_path)).1
                   +:+ (set_wait_file os trigger_file_pattern file_pattern
                                      (fix_path source_path)).2
                   +:+ " was not found with check_exist = false in "
                   +:+ fix_path source_path +:+ ".")])).
Proof.
  intros Hdir Habsent.
  unfold wait_for_file, bind at 1, os_path_exists. rewrite Hdir. cbn [negb].
  destruct (set_wait_file os trigger_file_pattern file_pattern (fix_path source_path))
    as [wait_filename wait_file_extension] eqn:Hset.
  cbn [fst snd] in Habsent |- *.
  unfold bind at 1, logging_debug, emit. cbn [clock trace].
  unfold bind at 1. cbn [time_time clock trace].
  unfold bind at 1, find_files, bind at 1, glob. cbn [clock trace].
  fold (polled_pattern os (fix_path source_path) wait_filename wait_file_extension).
  rewrite Habsent. cbn [map truthy FileExec.ret]. rewrite String.eqb_refl.
  unfold bind, FileExec.ret. cbn [clock trace].
  rewrite <- !app_assoc. reflexivity.
Qed.

(** When the directory is there, the file is not and waiting is allowed,
    the gate is its polling loop, started at the current clock. *)
Lemma wait_for_file_enters_loop
    (fuel : nat) (check_exist wait_response source_path : string) (wait_time : Z)
    (trigger_file_pattern file_pattern : string) (st : gate_state) :
  path_exists fs (clock st) (fix_path source_path) = true ->
  glob_glob fs (clock st)
    (polled_pattern os (fix_path source_path)
       (set_wait_file os trigger_file_pattern file_pattern (fix_path source_path)).1
       (set_wait_file os trigger_file_pattern file_pattern (fix_path source_path)).2)
  = [] ->
  check_exist <> "false" ->
  exists events,
    wait_for_file os fs fuel check_exist wait_response source_path wait_time
                  trigger_file_pattern file_pattern st
    = wait_loop os fs fuel wait_response (fix_path source_path) wait_time file_pattern
        (set_wait_file os trigger_file_pattern file_pattern (fix_path source_path)).1
        (set_wait_file os trigger_file_pattern file_pattern (fix_path source_path)).2
        (clock st) (mk_gate_state (clock st) (trace st ++ events)).
Proof.
  intros Hdir Habsent Hcheck.
  unfold wait_for_file, bind at 1, os_path_exists. rewrite Hdir. cbn [negb].
  destruct (set_wait_file os trigger_file_pattern file_pattern (fix_path source_path))
    as [wait_filename wait_file_extension] eqn:Hset.
  cbn [fst snd] in Habsent |- *.
  unfold bind at 1, logging_debug, emit. cbn [clock trace].
  unfold bind at 1. cbn [time_time clock trace].
  unfold bind at 1, find_files, bind at 1, glob. cbn [clock trace].
  fold (polled_pattern os (fix_path source_path) wait_filename wait_file_extension).
  rewrite Habsent. cbn [map truthy FileExec.ret].
  apply String.eqb_neq in Hcheck. rewrite Hcheck.
  eexists. rewrite <- !app_assoc. reflexivity.
Qed.

(** A poll that sees the file before the limit ends the loop with "1". *)
Lemma wait_loop_finds (wait_response source_path : string) (wait_time : Z)
    (file_pattern wait_filename wait_file_extension : string) (start_time : Z)
    (k : nat) :
  forall (fuel : nat) (st : gate_state),
    (k < fuel)%nat ->
    clock st - start_time + 5 * Z.of_nat k < wait_time ->
    glob_glob fs (clock st + 5 * Z.of_nat k)
      (polled_pattern os source_path wait_filename wait_file_extension) <> [] ->
    (wait_loop os fs fuel wait_response source_path wait_time file_pattern
               wait_filename wait_file_extension start_time st).1
    = Some ("1", "File " +:+ wait_filename +:+ " was found.").
Proof.
  induction k as [| k IH]; intros fuel st Hfuel Hlimit Hfound;
    (destruct fuel as [| fuel]; [lia |]);
    cbn [wait_loop]; unfold bind at 1; cbn [time_time];
    (destruct (clock st - start_time <? wait_time) eqn:Hlt;
     [| apply Z.ltb_ge in Hlt; lia]);
    unfold bind at 1, find_files, bind at 1, glob; cbn [clock];
    fold (polled_pattern os source_path wait_filename wait_file_extension).
  - rewrite Z.mul_0_r, Z.add_0_r in Hfound.
    destruct (glob_glob fs (clock st) _) as [| f files]; [contradiction |].
    reflexivity.
  - destruct (glob_glob fs (clock st) _) as [| f files]; [| reflexivity].
    cbn [map truthy FileExec.ret].
    unfold bind at 1, logging_debug, emit. cbn [clock].
    unfold bind at 1, time_sleep. cbn [clock].
    apply IH; cbn [clock]; [lia | lia |].
    replace (clock st + 5 + 5 * Z.of_nat k) with (clock st + 5 * Z.of_nat (S k)) by lia.
    exact Hfound.
Qed.


(** The loop sleeps five seconds at a time and only while the limit has
    not been reached, and it answers with one of the four codes. *)
Lemma wait_loop_invariant (wait_response source_path : string) (wait_time : Z)
    (file_pattern wait_filename wait_file_extension : string) (start_time : Z) :
  forall (fuel : nat) (st st' : gate_state) (r : option (string * string)),
    wait_loop os fs fuel wait_response source_path wait_time file_pattern
              wait_filename wait_file_extension start_time st = (r, st') ->
    (clock st' = clock st
     \/ (clock st < clock st' /\ clock st' - start_time < wait_time + 5))
    /\ (forall code msg, r = Some (code, msg) -> In code ["1"; "-1"; "-2"; "-3"]).
Proof.
  induction fuel as [| fuel IH]; intros st st' r H.
  - injection H as <- <-. split; [now left | discriminate].
  - cbn [wait_loop] in H. unfold bind at 1 in H. cbn [time_time] in H.
    destruct (clock st - start_time <? wait_time) eqn:Hlt.
    + unfold bind at 1, find_files, bind at 1, glob in H. cbn [clock] in H.
      destruct (glob_glob fs (clock st) _) as [| f files].
      * cbn [map truthy FileExec.ret] in H.
        unfold bind at 1, logging_debug, emit in H. cbn [clock] in H.
        unfold bind at 1, time_sleep in H. cbn [clock] in H.
        apply IH in H as [Hclock Hcode]. cbn [clock] in Hclock.
        apply Z.ltb_lt in Hlt. split; [right; lia | exact Hcode].
      * injection H as <- <-. cbn [clock]. split; [now left |].
        intros code msg [= <- _]. cbn. auto.
    + cbn in H.
      destruct (String.eqb wait_response "Error");
        [| destruct (String.eqb wait_response "Fatal Error");
           [| destruct (String.eqb wait_response "Warning")]];
        injection H as <- <-; cbn [clock]; (split; [now left |]);
        intros code msg [= <- _]; cbn; auto 6.
Qed.

(** X4: the wait is bounded whatever happens in the directory: the gate
    either does not sleep at all, or it returns less than five seconds after
    the wait time has run out. *)
Theorem wait_for_file_bounded_wait
    (fuel : nat) (check_exist wait_response source_path : string) (wait_time : Z)
    (trigger_file_pattern file_pattern : string) (st : gate_state) :
  clock (wait_for_file os fs fuel check_exist wait_response source_path wait_time
                       trigger_file_pattern file_pattern st).2 = clock st
  \/ (clock st < clock (wait_for_file os fs fuel check_exist wait_response source_path
                                      wait_time trigger_file_pattern file_pattern st).2
      /\ clock (wait_for_file os fs fuel check_exist wait_response source_path
                              wait_time trigger_file_pattern file_pattern st).2
         - clock st < wait_time + 5).
Proof.
  destruct (wait_for_file os fs fuel check_exist wait_response source_path wait_time
                          trigger_file_pattern file_pattern st) as [r st'] eqn:H.
  cbn [snd].
  unfold wait_for_file, bind at 1, os_path_exists in H.
  destruct (negb (path_exists fs (clock st) (fix_path source_path))).
  - injection H as _ <-. now left.
  - destruct (set_wait_file os trigger_file_pattern file_pattern (fix_path source_path))
      as [wait_filename wait_file_extension].
    unfold bind at 1, logging_debug, emit in H. cbn [clock trace] in H.
    unfold bind at 1 in H. cbn [time_time clock trace] in H.
    unfold bind at 1, find_files, bind at 1, glob in H. cbn [clock trace] in H.
    destruct (glob_glob fs (clock st) _) as [| f files].
    + cbn [map truthy FileExec.ret] in H.
      destruct (String.eqb check_exist "false").
      * injection H as _ <-. now left.
      * apply wait_loop_invariant in H as [Hclock _]. exact Hclock.
    + injection H as _ <-. now left.
Qed.

(** X5: whenever the gate answers, the code is one of "1", "-1", "-2" and
    "-3". *)
Theorem wait_for_file_codes
    (fuel : nat) (check_exist wait_response source_path : string) (wait_time : Z)
    (trigger_file_pattern file_pattern : string) (st : gate_state)
    (code msg : string) :
  (wait_for_file os fs fuel check_exist wait_response source_path wait_time
                 trigger_file_pattern file_pattern st).1 = Some (code, msg) ->
  In code ["1"; "-1"; "-2"; "-3"].
Proof.
  destruct (wait_for_file os fs fuel check_exist wait_response source_path wait_time
                          trigger_file_pattern file_pattern st) as [r st'] eqn:H.
  cbn [fst]. intros ->.
  unfold wait_for_file, bind at 1, os_path_exists in H.
  destruct (negb (path_exists fs (clock st) (fix_path source_path))).
  - injection H as <- _. cbn. auto 6.
  - destruct (set_wait_file os trigger_file_pattern file_pattern (fix_path source_path))
      as [wait_filename wait_file_extension].
    unfold bind at 1, logging_debug, emit in H. cbn [clock trace] in H.
    unfold bind at 1 in H. cbn [time_time clock trace] in H.
    unfold bind at 1, find_files, bind at 1, glob in H. cbn [clock trace] in H.
    destruct (glob_glob fs (clock st) _) as [| f files].
    + cbn [map truthy FileExec.ret] in H.
      destruct (String.eqb check_exist "false").
      * injection H as <- _. cbn. auto 6.
      * apply wait_loop_invariant in H as [_ Hcode]. now apply (Hcode code msg).
    + injection H as <- _. cbn. auto 6.
Qed.

(** X6: at the limit the three policies give their own severity: "Error"
    gives "-2", "Warning" gives "-1" and "Fatal Error" gives "-3", each with
    the message that names the policy. *)
Theorem wait_for_file_policy_at_limit
    (fuel : nat) (check_exist wait_response source_path : string) (wait_time : Z)
    (trigger_file_pattern file_pattern : string) (st : gate_state) :
  path_exists fs (clock st) (fix_path source_path) = true ->
  (forall t, glob_glob fs t
               (polled_pattern os (fix_path source_path)
                  (set_wait_file os trigger_file_pattern file_pattern
                                 (fix_path source_path)).1
                  (set_wait_file os trigger_file_pattern file_pattern
                                 (fix_path source_path)).2) = []) ->
  check_exist <> "false" ->
  (Z.to_nat wait_time < fuel)%nat ->
  In wait_response ["Error"; "Warning"; "Fatal Error"] ->
  (wait_for_file os fs fuel check_exist wait_response source_path wait_time
                 trigger_file_pattern file_pattern st).1
  = Some (if String.eqb wait_response "Error" then "-2"
          else if String.eqb wait_response "Warning" then "-1" else "-3",
          "Checking for file Exist is True and Action when Wait Limit Reached is specified as "
          +:+ wait_response +:+ ".").
Proof.
  intros Hdir Hnever Hcheck Hfuel Hpolicy.
  destruct (wait_for_file_enters_loop fuel check_exist wait_response source_path
              wait_time trigger_file_pattern file_pattern st Hdir (Hnever _) Hcheck)
    as [events ->].
  rewrite wait_loop_times_out by (try assumption; cbn [clock]; lia).
  cbn in Hpolicy. destruct Hpolicy as [<- | [<- | [<- | []]]]; reflexivity.
Qed.

End FileArrivalMore.

(** ** The trigger file and the effects of the gate, step by step *)
Section TriggerFirst.
Import FileExec.
Context (os : os_path) (fs : file_system).

Lemma gate_bind_time {B} (k : Z -> Gate B) (st : gate_state) :
  bind time_time k st
  = k (clock st) (mk_gate_state (clock st) (trace st ++ [EvTime])).
Proof. reflexivity. Qed.

Lemma gate_bind_log {B} (msg : string) (k : unit -> Gate B) (st : gate_state) :
  bind (logging_debug msg) k st
  = k tt (mk_gate_state (clock st) (trace st ++ [EvLog msg])).
Proof. reflexivity. Qed.

Lemma gate_bind_sleep {B} (seconds : Z) (k : unit -> Gate B) (st : gate_state) :
  bind (time_sleep seconds) k st
  = k tt (mk_gate_state (clock st + seconds) (trace st ++ [EvSleep seconds])).
Proof. reflexivity. Qed.

Lemma gate_bind_exists {B} (path : string) (k : bool -> Gate B) (st : gate_state) :
  bind (os_path_exists fs path) k st
  = k (path_exists fs (clock st) path)
      (mk_gate_state (clock st) (trace st ++ [EvPathExists path])).
Proof. reflexivity. Qed.

Lemma gate_bind_find {B} (folder name_pattern extension : string)
    (k : list (string * string) -> Gate B) (st : gate_state) :
  bind (find_files os fs folder name_pattern extension) k st
  = k (map (fun file => (fix_path folder, path_basename os file))
           (glob_glob fs (clock st) (polled_pattern os folder name_pattern extension)))
      (mk_gate_state (clock st)
         (trace st ++ [EvGlob (polled_pattern os folder name_pattern extension)])).
Proof. reflexivity. Qed.

(** The answer of the loop depends on the clock, not on the trace so far,
    and not on the name of the source file pattern, which is only logged. *)
Lemma wait_loop_pattern_only_logged (wait_response source_path : string)
    (wait_time : Z) (file_pattern file_pattern' wait_filename wait_file_extension : string)
    (start_time : Z) :
  forall (fuel : nat) (st st' : gate_state),
    clock st = clock st' ->
    (wait_loop os fs fuel wait_response source_path wait_time file_pattern
               wait_filename wait_file_extension start_time st).1
    = (wait_loop os fs fuel wait_response source_path wait_time file_pattern'
                 wait_filename wait_file_extension start_time st').1.
Proof.
  induction fuel as [| fuel IH]; intros st st' Hclock; [reflexivity |].
  cbn [wait_loop]. rewrite !gate_bind_time, Hclock.
  destruct (clock st' - start_time <? wait_time).
  - rewrite !gate_bind_find. cbn [clock].
    destruct (glob_glob fs (clock st') _) as [| f files].
    + cbn [map truthy]. rewrite !gate_bind_log, !gate_bind_sleep.
      apply IH. reflexivity.
    + reflexivity.
  - rewrite !gate_bind_log.
    destruct (String.eqb wait_response "Error"); [reflexivity |].
    destruct (String.eqb wait_response "Fatal Error"); [reflexivity |].
    destruct (String.eqb wait_response "Warning"); reflexivity.
Qed.


End TriggerFirst.

Lemma wait_for_file_present_at_call_witness :
  (FileExec.wait_for_file plain_os stocked_fs 0 "true" "Error" "C:\in " (-1) "" "a.csv"
                          fresh_gate).1
  = Some ("1", "File a.csv was found.").
Proof.
  rewrite (wait_for_file_present_at_call plain_os stocked_fs 0 "true" "Error" "C:\in "
             (-1) "" "a.csv" fresh_gate).
  - reflexivity.
  - reflexivity.
  - discriminate.
Defined.

Lemma wait_for_file_must_exist_witness :
  (FileExec.wait_for_file plain_os idle_fs 0 "false" "Warning" "C:\in " 600 "" "a.csv"
                          fresh_gate).1
  = Some ("-3", "File a.csv was not found with check_exist = false in C:/in.").
Proof.
  rewrite (wait_for_file_must_exist plain_os idle_fs 0 "Warning" "C:\in " 600 ""
             "a.csv" fresh_gate).
  - reflexivity.
  - reflexivity.
  - reflexivity.
Defined.


Lemma wait_for_file_codes_witness : In "-3" ["1"; "-1"; "-2"; "-3"].
Proof.
  apply (wait_for_file_codes plain_os no_directory_fs 0 "true" "Error" "C:\in " 60 ""
           "a.csv" fresh_gate "-3" "Folder C:/in was not found.").
  reflexivity.
Defined.

Lemma wait_for_file_policy_at_limit_witness :
  (FileExec.wait_for_file plain_os idle_fs 13 "true" "Warning" "C:\in " 12 "" "a.csv"
                          fresh_gate).1
  = Some ("-1",
          "Checking for file Exist is True and Action when Wait Limit Reached is specified as Warning.").
Proof.
  apply (wait_for_file_policy_at_limit plain_os idle_fs 13 "true" "Warning" "C:\in " 12
           "" "a.csv" fresh_gate).
  - reflexivity.
  - intros t. reflexivity.
  - discriminate.
  - vm_compute. lia.
  - cbn. auto.
Defined.


(** ** Return messages and audit text *)
Section ReturnMessages.
Import Py Common CommonOps.

(** X8: the exit handler and the return message never agree on success.
    Under a job, every code that [ExitHandler] turns into exit status 0 is
    worded as a failed job by [set_proper_return_msg], and the one code that
    is worded as a success, "1", exits with status 1. *)
Theorem exit_status_and_message_disagree
    (environ : gmap string string) (ret_code : value) (obj_name ret_msg msg : string) :
  develop_run environ = false ->
  (status (ExitHandler environ ret_code msg) = 0 ->
   exists rest,
     set_proper_return_msg ret_code obj_name ret_msg
     = "Job " +:+ obj_name +:+ " failed" +:+ rest)
  /\ (set_proper_return_msg (VStr "1") obj_name ret_msg
      = ret_msg +:+ " into " +:+ obj_name +:+ " table"
      /\ status (ExitHandler environ (VStr "1") msg) = 1).
Proof.
  intros Hjob. split.
  - unfold ExitHandler. fold (develop_run environ). rewrite Hjob.
    destruct ret_code as [z | s |]; cbn [eq_int sys_exit status].
    + intros Hz. unfold set_proper_return_msg. cbn [eq_str is_none].
      eexists. reflexivity.
    + discriminate.
    + intros _. unfold set_proper_return_msg. cbn [eq_str is_none].
      eexists. reflexivity.
  - split; [reflexivity |]. now apply ExitHandler_string_code.
Qed.

End ReturnMessages.

Lemma exit_status_and_message_disagree_witness :
  exists rest,
    CommonOps.set_proper_return_msg (Py.VInt 1) "CUSTOMERS" "Inserted 1,250 rows"
    = "Job CUSTOMERS failed" +:+ rest.
Proof.
  apply (exit_status_and_message_disagree job_environ (Py.VInt 1) "CUSTOMERS"
           "Inserted 1,250 rows" "done").
  - reflexivity.
  - reflexivity.
Defined.

(** ** Replacement and the characters it leaves *)
Section ReplaceFacts.
Import PyStr.

Lemma replace_char_step (x : ascii) (new : string) (c : ascii) (s : string) :
  replace_from (String x EmptyString) new O (String c s)
  = if Ascii.eqb c x then new +:+ replace_from (String x EmptyString) new O s
    else String c (replace_from (String x EmptyString) new O s).
Proof.
  cbn [replace_from String.prefix].
  destruct (ascii_dec x c) as [<- | Hne].
  - rewrite Ascii.eqb_refl. now destruct s.
  - destruct (Ascii.eqb_spec c x) as [-> | _]; [contradiction | reflexivity].
Qed.

Lemma has_char_append (x : ascii) (s t : string) :
  has_char x (s +:+ t) = has_char x s || has_char x t.
Proof.
  induction s as [| c s IH]; [reflexivity |].
  simpl. now rewrite IH, orb_assoc.
Qed.

Lemma count_char_append (x : ascii) (s t : string) :
  count_char x (s +:+ t) = (count_char x s + count_char x t)%nat.
Proof.
  induction s as [| c s IH]; [reflexivity |].
  simpl. rewrite IH. lia.
Qed.

Lemma count_char_absent (x : ascii) (s : string) :
  has_char x s = false -> count_char x s = O.
Proof.
  induction s as [| c s IH]; [reflexivity |].
  cbn [has_char count_char]. intros H. apply orb_false_iff in H as [-> Hs].
  now rewrite IH.
Qed.

(** Replacing a character by a text without it removes the character. *)
Lemma replace_char_removed (x : ascii) (new s : string) :
  has_char x new = false ->
  has_char x (replace (String x EmptyString) new s) = false.
Proof.
  intros Hnew. unfold replace. induction s as [| c s IH]; [reflexivity |].
  rewrite replace_char_step.
  destruct (Ascii.eqb c x) eqn:Hc.
  - now rewrite has_char_append, Hnew, IH.
  - cbn [has_char]. now rewrite Hc, IH.
Qed.

(** Replacing a character by a text counts that text once per occurrence. *)
Lemma replace_char_count (x y : ascii) (new s : string) :
  count_char y (replace (String x EmptyString) new s)
  = if Ascii.eqb x y then (count_char y new * count_char x s)%nat
    else (count_char y s + count_char y new * count_char x s)%nat.
Proof.
  unfold replace. induction s as [| c s IH].
  - cbn. destruct (Ascii.eqb x y); lia.
  - rewrite replace_char_step. cbn [count_char].
    destruct (Ascii.eqb_spec c x) as [-> | Hcx].
    + rewrite count_char_append, IH.
      destruct (Ascii.eqb_spec x y) as [-> | Hxy]; lia.
    + cbn [count_char]. rewrite IH.
      destruct (Ascii.eqb_spec x y) as [-> | Hxy].
      * destruct (Ascii.eqb_spec c y) as [-> | _]; [contradiction | lia].
      * destruct (Ascii.eqb c y); lia.
Qed.

Lemma prefix_tail (c : ascii) (old s : string) :
  String.prefix (String c old) s = true ->
  exists s', s = String c s'
             /\ String.substring 0 (String.length old) s' = old.
Proof.
  destruct s as [| d s']; cbn [String.prefix]; [discriminate |].
  destruct (ascii_dec c d) as [<- | _]; [| discriminate].
  intros H. exists s'. split; [reflexivity |]. now apply String.prefix_correct.
Qed.

(** A character that occurs neither in the text replaced nor in its
    replacement is counted the same before and after; while a match is
    being skipped, the characters still to drop are part of that match. *)
Lemma replace_from_count (x : ascii) (old new : string) :
  old <> EmptyString ->
  has_char x old = false ->
  has_char x new = false ->
  forall (s : string) (skip : nat),
    has_char x (String.substring 0 skip s) = false ->
    count_char x (replace_from old new skip s) = count_char x s.
Proof.
  intros Hold Hxold Hxnew. induction s as [| c s IH]; intros skip Hskip.
  - reflexivity.
  - destruct skip as [| k].
    + cbn [replace_from].
      destruct (String.prefix old (String c s)) eqn:Hp.
      * destruct old as [| o old']; [contradiction |].
        apply prefix_tail in Hp as (s' & [= <- <-] & Hsub).
        cbn [has_char] in Hxold. apply orb_false_iff in Hxold as [Ho Hold'].
        rewrite count_char_append, (count_char_absent _ _ Hxnew).
        cbn [String.length Nat.sub count_char]. rewrite Nat.sub_0_r, Ho.
        apply IH. now rewrite Hsub.
      * cbn [count_char]. now rewrite IH by (now destruct s).
    + cbn [replace_from count_char]. cbn [String.substring has_char] in Hskip.
      apply orb_false_iff in Hskip as [-> Hskip]. now apply IH.
Qed.

Lemma replace_count_other (x : ascii) (old new s : string) :
  old <> EmptyString ->
  has_char x old = false ->
  has_char x new = false ->
  count_char x (replace old new s) = count_char x s.
Proof.
  intros Hold Hxold Hxnew. unfold replace.
  apply replace_from_count; try assumption. now destruct s.
Qed.

End ReplaceFacts.

(** X9: the audit record carries every single quote of a message twice, in
    the message and in the database message alike, so that none of them can
    end the SQL literal it is written into. *)
Theorem audit_record_doubles_quotes
    (environ : gmap string string) (status_code message db_code db_message : string) :
  PyStr.count_char "'"
    (Common.a_message
       (Common.audit_record_of environ status_code message db_code db_message))
  = (2 * PyStr.count_char "'" message)%nat
  /\ PyStr.count_char "'"
       (Common.a_db_msg
          (Common.audit_record_of environ status_code message db_code db_message))
     = (2 * PyStr.count_char "'" db_message)%nat.
Proof.
  cbn [Common.audit_record_of Common.a_message Common.a_db_msg]. unfold Common.clean.
  split; (rewrite replace_count_other by (discriminate || reflexivity));
    rewrite replace_char_count; cbn; lia.
Qed.

(** ** File names from templates, and the archive *)
Section Archive.
Import Py FileExec FileOps.
Context (os : os_path) (fs : file_system).

(** X10: whatever the template and the clock text, the generated file name
    contains no dollar sign. *)
Theorem generate_filename_has_no_dollar (current_time filename : string) :
  PyStr.has_char "$" (generate_filename_with_datetime os current_time filename) = false.
Proof. unfold generate_filename_with_datetime. now apply replace_char_removed. Qed.

Lemma archive_files_first_call (current_time archive_path archive_filename : string)
    (file_to_move : string) (rest : list string) (sequence_number : Z) :
  archive_files os current_time archive_path archive_filename (file_to_move :: rest)
                sequence_number
  = (Raise TypeError, []).
Proof. reflexivity. Qed.

(** X11: [move_files_to_archive] never moves a file.  With no matching
    file it returns after creating the archive folder if that was missing;
    with a matching file the call of the name generator with two arguments
    is a TypeError before the first move. *)
Theorem move_files_to_archive_never_moves (now : Z) (current_time : string)
    (file_pattern source_path archive_path archive_filename : string) :
  (forall src dst,
      ~ In (ArMove src dst)
           (move_files_to_archive os fs now current_time file_pattern source_path
                                  archive_path archive_filename).2)
  /\ (move_files_to_archive os fs now current_time file_pattern source_path
                            archive_path archive_filename).1
     = match glob_glob fs now (path_join os (fix_path source_path) file_pattern) with
       | [] => Ok tt
       | _ :: _ => Raise TypeError
       end.
Proof.
  unfold move_files_to_archive.
  destruct (glob_glob fs now (path_join os (fix_path source_path) file_pattern))
    as [| f files].
  - cbn [archive_files fst snd]. rewrite app_nil_r. split; [| reflexivity].
    intros src dst.
    destruct (negb (path_exists fs now (fix_path archive_path))); cbn; intuition discriminate.
  - rewrite archive_files_first_call. cbn [fst snd]. rewrite app_nil_r.
    split; [| reflexivity].
    intros src dst.
    destruct (negb (path_exists fs now (fix_path archive_path))); cbn; intuition discriminate.
Qed.

End Archive.

(** ** The uploader's aggregation *)
Section PutMessage.
Import Py Common SqlExec SqlOps.
Context (ext : externals).

Lemma put_rows_typed (rows : list put_row) :
  forall (bytes_loaded_sum files_loaded_count : Z) (w : world),
    put_rows ext (map put_tuple_of rows) bytes_loaded_sum files_loaded_count w
    = (Ok (bytes_loaded_sum + total_bytes rows,
           files_loaded_count + Z.of_nat (length rows)),
       mk_world (files w) (audit w ++ map (put_event (environ ext)) rows) (logs w)).
Proof.
  induction rows as [| r rows IH]; intros s c [fs au lg].
  - cbn. now rewrite !Z.add_0_r, app_nil_r.
  - cbn [map put_rows put_tuple_of].
    rewrite bind_lift. cbn [format_comma]. rewrite bind_lift.
    rewrite bind_audit_log. cbn beta. rewrite IH.
    cbn [files audit logs total_bytes fold_right length str].
    fold (put_event (environ ext) r). fold (total_bytes rows).
    rewrite <- app_assoc. cbn [app]. do 3 f_equal; lia.
Qed.



End PutMessage.


(** ** The report of the bulk-copy tool *)
Section BcpReport.
Import Py PyStr SqlOps.

Lemma decimal_char_facts (c : ascii) :
  is_decimal_char c = true ->
  is_space c = false /\ c <> "-"%char /\ c <> "+"%char /\ c <> "_"%char
  /\ 0 <= Z.of_nat (nat_of_ascii c - 48).
Proof.
  intros H. repeat split; try lia;
    destruct c as [[] [] [] [] [] [] [] []]; try discriminate H; try reflexivity;
    discriminate.
Qed.

Lemma lstrip_no_space (s : string) :
  all_chars (fun c => negb (is_space c)) s = true -> lstrip s = s.
Proof.
  destruct s as [| c s]; [reflexivity |]. cbn [all_chars lstrip].
  intros H. apply andb_true_iff in H as [Hc _].
  now destruct (is_space c).
Qed.

Lemma rstrip_no_space (s : string) :
  all_chars (fun c => negb (is_space c)) s = true -> rstrip s = s.
Proof.
  induction s as [| c s IH]; [reflexivity |]. cbn [all_chars rstrip].
  intros H. apply andb_true_iff in H as [Hc Hs].
  rewrite IH by exact Hs. now destruct (is_space c).
Qed.

Lemma decimal_no_space (s : string) :
  all_chars is_decimal_char s = true ->
  all_chars (fun c => negb (is_space c)) s = true.
Proof.
  induction s as [| c s IH]; [reflexivity |]. cbn [all_chars].
  intros H. apply andb_true_iff in H as [Hc Hs].
  destruct (decimal_char_facts c Hc) as [-> _]. now rewrite IH.
Qed.

Lemma parse_digits_decimal (s : string) :
  all_chars is_decimal_char s = true ->
  forall (acc : Z) (after_digit : bool),
    0 <= acc ->
    s <> EmptyString \/ after_digit = true ->
    exists n, 0 <= n /\ parse_digits acc after_digit s = Some n.
Proof.
  induction s as [| c s IH]; intros Hs acc after_digit Hacc Hne.
  - destruct Hne as [Hne | ->]; [contradiction |]. exists acc. auto.
  - cbn [all_chars] in Hs. apply andb_true_iff in Hs as [Hc Hs].
    cbn [parse_digits]. rewrite Hc.
    apply IH; [exact Hs | | now right].
    destruct (decimal_char_facts c Hc) as (_ & _ & _ & _ & Hd). lia.
Qed.

(** [int] reads every non-empty run of decimal digits. *)
Lemma int_of_str_decimal (s : string) :
  s <> EmptyString ->
  all_chars is_decimal_char s = true ->
  exists n, 0 <= n /\ int_of_str s = Some n.
Proof.
  intros Hne Hs. unfold int_of_str, strip.
  rewrite lstrip_no_space, rstrip_no_space by now apply decimal_no_space.
  destruct s as [| c s]; [contradiction |].
  pose proof Hs as Hs'. cbn [all_chars] in Hs'. apply andb_true_iff in Hs' as [Hc _].
  destruct (decimal_char_facts c Hc) as (_ & Hminus & Hplus & _).
  assert (Hparse : exists n, 0 <= n /\ parse_digits 0 false (String c s) = Some n)
    by (apply parse_digits_decimal; [exact Hs | lia | now left]).
  destruct c as [[] [] [] [] [] [] [] []]; try exact Hparse; contradiction.
Qed.

Lemma span_digits_decimal (s : string) :
  all_chars is_decimal_char (span_digits s).1 = true.
Proof.
  induction s as [| c s IH]; [reflexivity |]. cbn [span_digits].
  destruct (is_decimal_char c) eqn:Hc; [| reflexivity].
  destruct (span_digits s) as [digits rest]. cbn [fst all_chars] in *.
  now rewrite Hc, IH.
Qed.

Lemma match_rows_group (s digits : string) (len : nat) :
  match_rows s = Some (digits, len) ->
  digits <> EmptyString /\ all_chars is_decimal_char digits = true.
Proof.
  unfold match_rows. pose proof (span_digits_decimal s) as Hd.
  destruct (span_digits s) as [d rest]. cbn [fst] in Hd.
  destruct d as [| c d]; cbn [is_empty]; [discriminate |].
  destruct (String.prefix _ rest); [intros [= <- _]; split; [discriminate | exact Hd] |].
  destruct (String.prefix _ rest); [intros [= <- _]; split; [discriminate | exact Hd] |].
  discriminate.
Qed.

Lemma findall_rows_groups (s : string) :
  forall skip,
    Forall (fun digits => digits <> EmptyString
                          /\ all_chars is_decimal_char digits = true)
           (findall_rows skip s).
Proof.
  induction s as [| c s IH]; intros skip; [constructor |].
  cbn [findall_rows]. destruct skip as [| k]; [| apply IH].
  destruct (match_rows (String c s)) as [[digits len] |] eqn:Hm; [| apply IH].
  constructor; [exact (match_rows_group _ _ _ Hm) | apply IH].
Qed.

(** The count is always read: the function cannot raise. *)
Lemma extract_bcp_rows_extracted_reads (bcp_std_out : string) :
  exists n,
    0 <= n
    /\ extract_bcp_rows_extracted bcp_std_out
       = Ok ("BCP extracted " +:+ format_thousands n +:+ " rows").
Proof.
  unfold extract_bcp_rows_extracted.
  pose proof (findall_rows_groups bcp_std_out O) as Hall.
  destruct (last (findall_rows O bcp_std_out)) as [digits |] eqn:Hlast.
  - apply last_Some in Hlast as [l' Hl]. rewrite Hl in Hall.
    apply Forall_app in Hall as [_ Hd]. apply Forall_cons in Hd as [[Hne Hdec] _].
    destruct (int_of_str_decimal digits Hne Hdec) as (n & Hn & ->). eauto.
  - exists 0. split; [lia | reflexivity].
Qed.


Lemma span_digits_run (digits rest : string) :
  all_chars is_decimal_char digits = true ->
  (forall c r, rest = String c r -> is_decimal_char c = false) ->
  span_digits (digits +:+ rest) = (digits, rest).
Proof.
  intros Hd Hrest. induction digits as [| c digits IH].
  - change (EmptyString +:+ rest) with rest.
    destruct rest as [| c r]; [reflexivity |].
    cbn [span_digits]. now rewrite (Hrest c r eq_refl).
  - cbn [all_chars] in Hd. apply andb_true_iff in Hd as [Hc Hd].
    change (String c digits +:+ rest) with (String c (digits +:+ rest)).
    cbn [span_digits]. rewrite Hc, IH by exact Hd. reflexivity.
Qed.

Lemma length_append (a b : string) :
  String.length (a +:+ b) = (String.length a + String.length b)%nat.
Proof. induction a as [| c a IH]; [reflexivity | simpl; now rewrite IH]. Qed.

Lemma append_assoc (a b c : string) : (a +:+ b) +:+ c = a +:+ b +:+ c.
Proof.
  induction a as [| x a IH]; [reflexivity |].
  change (String x ((a +:+ b) +:+ c) = String x (a +:+ b +:+ c)). now rewrite IH.
Qed.

Lemma findall_rows_skip (a s : string) (k : nat) :
  findall_rows (String.length a + k) (a +:+ s) = findall_rows k s.
Proof. induction a as [| c a IH]; [reflexivity | simpl; exact IH]. Qed.

Lemma findall_rows_no_digit (pre s : string) :
  all_chars (fun c => negb (is_decimal_char c)) pre = true ->
  findall_rows O (pre +:+ s) = findall_rows O s.
Proof.
  induction pre as [| c pre IH]; [reflexivity |]. cbn [all_chars].
  intros H. apply andb_true_iff in H as [Hc Hpre].
  change (String c pre +:+ s) with (String c (pre +:+ s)).
  cbn [findall_rows]. unfold match_rows. cbn [span_digits].
  destruct (is_decimal_char c); [discriminate |]. cbn [is_empty]. now apply IH.
Qed.

(** X15: a report with one count is read as that count: after text
    without digits, [N rows copied] followed by text in which the pattern
    does not match again gives "BCP extracted N rows". *)
Theorem extract_bcp_rows_extracted_single_report
    (pre digits post : string) (n : Z) :
  all_chars (fun c => negb (is_decimal_char c)) pre = true ->
  digits <> EmptyString ->
  all_chars is_decimal_char digits = true ->
  int_of_str digits = Some n ->
  findall_rows O post = [] ->
  extract_bcp_rows_extracted (pre +:+ digits +:+ " rows copied" +:+ post)
  = Ok ("BCP extracted " +:+ format_thousands n +:+ " rows").
Proof.
  intros Hpre Hne Hdec Hn Hpost. unfold extract_bcp_rows_extracted.
  rewrite findall_rows_no_digit by exact Hpre.
  destruct digits as [| c digits]; [contradiction |].
  assert (Hm : match_rows (String c digits +:+ " rows copied" +:+ post)
               = Some (String c digits,
                       (String.length (String c digits)
                        + String.length " rows copied")%nat)).
  { unfold match_rows. rewrite span_digits_run; [| exact Hdec |].
    - cbn [is_empty]. simpl String.append.
      replace (String.prefix " rows successfully bulk-copied" _) with false
        by (symmetry; cbn; reflexivity).
      now replace (String.prefix " rows copied" _) with true
        by (symmetry; apply String.prefix_correct; cbn; now destruct post).
    - intros c' r [= <- _]. reflexivity. }
  change (String c digits +:+ " rows copied" +:+ post)
    with (String c (digits +:+ " rows copied" +:+ post)) in *.
  cbn [findall_rows]. rewrite Hm.
  replace (String.length (String c digits) + String.length " rows copied" - 1)%nat
    with (String.length (digits +:+ " rows copied") + 0)%nat
    by (rewrite length_append; cbn [String.length]; lia).
  replace (digits +:+ " rows copied" +:+ post)
    with ((digits +:+ " rows copied") +:+ post)
    by apply append_assoc.
  rewrite findall_rows_skip, Hpost. cbn [last]. now rewrite Hn.
Qed.

End BcpReport.

Lemma extract_bcp_rows_extracted_single_report_witness :
  SqlOps.extract_bcp_rows_extracted
    ("Starting copy..." +:+ "1250" +:+ " rows copied"
     +:+ ". Network packet size (bytes): 4096")
  = Py.Ok "BCP extracted 1,250 rows".
Proof.
  apply (extract_bcp_rows_extracted_single_report "Starting copy..." "1250"
           ". Network packet size (bytes): 4096" 1250).
  - reflexivity.
  - discriminate.
  - reflexivity.
  - reflexivity.
  - reflexivity.
Defined.

(** ** The extractors when the tool fails or succeeds *)
Section Extractors.
Import Py Common SqlExec SqlOps.
Context (ext : externals).



(** X18: a failure of BCP is an error, never a fatal error, and it does not
    stop the extractor: with a data file of an earlier run in the working
    directory that file is converted and "-2" is returned after the parquet
    record; without one the conversion raises FileNotFoundError and no code
    is returned at all. *)
Theorem extract_bcp_tool_failure
    (extract_sql load_table work_dir source_dsn data_file_charset : string)
    (w : world) (exit_status : Z) :
  subprocess_run ext
    (bcp_command extract_sql (os_path_join ext work_dir load_table +:+ ".dat")
                 source_dsn data_file_charset)
    (files w)
  = inr exit_status ->
  (forall table,
      os_path_join ext work_dir load_table +:+ ".dat" ∈ files w ->
      read_csv ext (os_path_join ext work_dir load_table +:+ ".dat") "utf8"
      = Some table ->
      exists w',
        extract_bcp ext extract_sql load_table work_dir source_dsn data_file_charset w
        = (Ok ("-2",
               "Call to BCP failed: "
               +:+ bcp_command extract_sql
                     (os_path_join ext work_dir load_table +:+ ".dat")
                     source_dsn data_file_charset), w')
        /\ files w' = {[os_path_join ext work_dir load_table +:+ ".parquet"]} ∪ files w
        /\ audit w'
           = audit w ++ [audit_record_of (environ ext) "I"
                           ("Parquet file created for " +:+ table) "db_code3" ""])
  /\ (os_path_join ext work_dir load_table +:+ ".dat" ∉ files w ->
      (extract_bcp ext extract_sql load_table work_dir source_dsn data_file_charset
                   w).1
      = Raise FileNotFoundError).
Proof.
  intros Hrun. split.
  - intros table Hdata Hcsv.
    unfold extract_bcp, run_process, logging_debug, audit_log, AuditLog, open_read,
      write_table, Common.bind, Common.ret, lift.
    cbn [files audit logs]. rewrite Hrun. cbn [files audit logs].
    destruct (decide (os_path_join ext work_dir load_table +:+ ".dat" ∈ files w));
      [| contradiction].
    rewrite Hcsv. cbn [files audit logs]. eauto.
  - intros Hdata.
    unfold extract_bcp, run_process, logging_debug, open_read, Common.bind,
      Common.ret.
    cbn [files audit logs]. rewrite Hrun. cbn [files audit logs].
    now destruct (decide (os_path_join ext work_dir load_table +:+ ".dat" ∈ files w)).
Qed.

End Extractors.



Lemma extract_bcp_tool_failure_witness :
  (SqlOps.extract_bcp tool_fails "select 1" "CUSTOMERS" "C:/work" "SRC" ""
                      stale_world).1
  = Py.Ok ("-2",
           "Call to BCP failed: "
           +:+ SqlOps.bcp_command "select 1" "C:/work/CUSTOMERS.dat" "SRC" "")
  /\ (SqlOps.extract_bcp tool_fails "select 1" "CUSTOMERS" "C:/work" "SRC" ""
                         empty_world).1
     = Py.Raise Py.FileNotFoundError.
Proof.
  split.
  - destruct (proj1 (extract_bcp_tool_failure tool_fails "select 1" "CUSTOMERS"
                       "C:/work" "SRC" "" stale_world 1 eq_refl) "pyarrow.Table")
      as (w' & Hrun & _).
    + change ("C:/work/CUSTOMERS.dat" ∈ ({["C:/work/CUSTOMERS.dat"]} : gset string)).
      now apply elem_of_singleton.
    + reflexivity.
    + now rewrite Hrun.
  - apply (extract_bcp_tool_failure tool_fails "select 1" "CUSTOMERS" "C:/work" "SRC" ""
             empty_world 1).
    + reflexivity.
    + apply not_elem_of_empty.
Defined.

(** ** Stages that run statements: how they end *)
Section Stages.
Import Py Common SqlExec SqlOps SqlRun.
Context (ses : session).

Lemma pbind_debug {B} (msg : string) (k : unit -> Proc B) (w : world) :
  pbind (debug msg) k w = k tt (mk_world (files w) (Common.audit w) (logs w ++ [msg])).
Proof. reflexivity. Qed.

Lemma pbind_audit {B} (status_code message db_code db_message : string)
    (k : audit_answer -> Proc B) (w : world) :
  pbind (SqlRun.audit ses status_code message db_code db_message) k w
  = k (WsWrkAudit (ext ses)
         (audit_record_of (environ (ext ses)) status_code message db_code db_message))
      (mk_world (files w)
         (Common.audit w
          ++ [audit_record_of (environ (ext ses)) status_code message db_code
                              db_message])
         (logs w)).
Proof. reflexivity. Qed.

Lemma pbind_lift {A B} (r : result A) (k : A -> Proc B) (w : world) :
  pbind (perform (lift r)) k w
  = match r with
    | Ok a => k a w
    | Raise e => (Raised (Builtin e), w)
    end.
Proof. now destruct r. Qed.

Lemma pbind_execute {B} (sql : string) (k : list (list value) -> Proc B) (w : world) :
  pbind (execute ses sql) k w
  = match crsr_execute ses sql with
    | inl rows => k rows w
    | inr f => (Raised f, w)
    end.
Proof. unfold pbind, execute. now destruct (crsr_execute ses sql). Qed.

Lemma pbind_perform {A B} (m : Eff A) (k : A -> Proc B) (w : world) :
  pbind (perform m) k w
  = match m w with
    | (Ok a, w') => k a w'
    | (Raise e, w') => (Raised (Builtin e), w')
    end.
Proof. unfold pbind, perform. now destruct (m w) as [[a | e] w']. Qed.

(** The common handlers always end in [ExitHandler] with "-2", after one
    log line and one audit record. *)
Lemma handle_failure_exits {A} (f : failure) (w : world) :
  @handle_failure ses A f w
  = (Exited (ExitHandler (environ (ext ses)) (VStr "-2")
               ("Snowflake SQL execution error: " +:+ short_text ses f)),
     mk_world (files w)
       (Common.audit w
        ++ [audit_record_of (environ (ext ses)) "E"
              "Snowflake SQL execution error has been encountered" "db_code3"
              (short_text ses f)])
       (logs w
        ++ [match f with
            | Driver _ => "Snowflake SQL execution error: " +:+ short_text ses f
            | Builtin _ => "An unexpected error occurred: " +:+ short_text ses f
            end])).
Proof. reflexivity. Qed.

Lemma first_char_single (s c : string) :
  first_char s = Ok c -> String.length c = 1%nat /\ first_char c = Ok c.
Proof. destruct s as [| x s]; [discriminate |]. intros [= <-]. auto. Qed.

(** How [put_execute] can end. *)
Lemma put_execute_ends (sql : string) (w : world) :
  (exists code w',
      put_execute ses sql w = (Returned (code, "PUT phase of script is done"), w')
      /\ String.length code = 1%nat)
  \/ (exists text w',
         put_execute ses sql w
         = (Exited (ExitHandler (environ (ext ses)) (VStr "-2")
                      ("Snowflake SQL execution error: " +:+ text)), w')).
Proof.
  unfold put_execute, ptry. rewrite pbind_debug.
  rewrite pbind_execute.
  destruct (crsr_execute ses sql) as [rows | f].
  - rewrite pbind_perform.
    destruct (crt_put_message (ext ses) rows _) as [[[code msg] | e] w1] eqn:Hcrt.
    + assert (Hmsg : msg = "PUT phase of script is done").
      { unfold crt_put_message, Common.bind at 1 in Hcrt.
        destruct (put_rows (ext ses) rows 0 0 _) as [[totals | e] w0]; [| discriminate].
        rewrite bind_audit_log in Hcrt. cbn beta in Hcrt. rewrite bind_lift in Hcrt.
        destruct (first_cell _); now inversion Hcrt. }
      subst msg. cbn [fst snd]. rewrite pbind_lift.
      destruct (first_char code) as [c | e] eqn:Hc.
      * destruct (first_char_single _ _ Hc) as [Hlen Hc'].
        rewrite pbind_lift, Hc'. left. cbn beta iota. eauto.
      * right. cbn beta iota. rewrite handle_failure_exits. eauto.
    + right. cbn beta iota. rewrite handle_failure_exits. eauto.
  - right. cbn beta iota. rewrite handle_failure_exits. eauto.
Qed.

(** How [copyinto_execute] can end. *)
Lemma copyinto_execute_ends (sql : string) (w : world) :
  (exists code msg w',
      copyinto_execute ses sql w = (Returned (code, msg), w')
      /\ String.length code = 1%nat /\ first_char code = Ok code)
  \/ (exists text w',
         copyinto_execute ses sql w
         = (Exited (ExitHandler (environ (ext ses)) (VStr "-2")
                      ("Snowflake SQL execution error: " +:+ text)), w')).
Proof.
  unfold copyinto_execute, ptry. rewrite pbind_debug.
  rewrite pbind_execute.
  destruct (crsr_execute ses sql) as [rows | f].
  - rewrite pbind_perform.
    destruct (crt_copyinto_message (ext ses) rows _) as [[[code msg] | e] w1].
    + cbn [fst snd]. rewrite pbind_lift.
      destruct (first_char code) as [c | e] eqn:Hc.
      * destruct (first_char_single _ _ Hc) as [Hlen Hc'].
        rewrite pbind_lift, Hc'. left. cbn beta iota. eauto 6.
      * right. cbn beta iota. rewrite pbind_debug, pbind_audit. eauto.
    + right. cbn beta iota. rewrite pbind_debug, pbind_audit. eauto.
  - right. destruct f as [e | [text | text]].
    + cbn beta iota. rewrite pbind_debug, pbind_audit. eauto.
    + cbn beta iota. rewrite pbind_debug, pbind_audit. eauto.
    + cbn beta iota. rewrite handle_failure_exits. eauto.
Qed.

(** X19: [put_execute] never lets an exception through.  It returns a code
    of one character with the text "PUT phase of script is done", or it ends
    the process in [ExitHandler] with "-2". *)
Theorem put_execute_never_raises (sql : string) (w : world) :
  match (put_execute ses sql w).1 with
  | Returned (code, msg) =>
      String.length code = 1%nat /\ msg = "PUT phase of script is done"
  | Raised _ => False
  | Exited report =>
      exists text,
        report = ExitHandler (environ (ext ses)) (VStr "-2")
                   ("Snowflake SQL execution error: " +:+ text)
  end.
Proof.
  destruct (put_execute_ends sql w) as [(code & w' & -> & Hlen) | (text & w' & ->)];
    cbn [fst]; eauto.
Qed.

(** X20: [copyinto_execute] never lets an exception through either: a
    response the loader cannot add up, a sink without an answer and every
    error of the driver all end in [ExitHandler] with "-2"; otherwise a code
    of one character is returned. *)
Theorem copyinto_execute_never_raises (sql : string) (w : world) :
  match (copyinto_execute ses sql w).1 with
  | Returned (code, msg) => String.length code = 1%nat
  | Raised _ => False
  | Exited report =>
      exists text,
        report = ExitHandler (environ (ext ses)) (VStr "-2")
                   ("Snowflake SQL execution error: " +:+ text)
  end.
Proof.
  destruct (copyinto_execute_ends sql w)
    as [(code & msg & w' & -> & Hlen & _) | (text & w' & ->)];
    cbn [fst]; eauto.
Qed.

End Stages.

(** ** Stages that run statements: what they return and how they compose *)
Section StagesCompose.
Import Py Common SqlExec SqlOps SqlRun.
Context (ses : session).

Lemma pbind_unfold {A B} (m : Proc A) (k : A -> Proc B) (w : world) :
  pbind m k w
  = match m w with
    | (Returned a, w') => k a w'
    | (Raised f, w') => (Raised f, w')
    | (Exited report, w') => (Exited report, w')
    end.
Proof. reflexivity. Qed.

Lemma crt_copyinto_message_file_rows (rows : list file_row) (w : world) :
  crt_copyinto_message (ext ses) (map tuple_of rows) w
  = (match first_cell
             (WsWrkAudit (ext ses)
                (summary_event (environ (ext ses)) (total_rows_loaded rows)
                               (Z.of_nat (length rows)))) with
     | Ok cell => Ok (str cell, final_db_msg (total_rows_loaded rows)
                                             (Z.of_nat (length rows)))
     | Raise e => Raise e
     end,
     mk_world (files w)
       (Common.audit w ++ map (row_event (environ (ext ses))) rows
        ++ [summary_event (environ (ext ses)) (total_rows_loaded rows)
                          (Z.of_nat (length rows))])
       (logs w)).
Proof.
  destruct w as [fs au lg]. unfold crt_copyinto_message.
  unfold Common.bind at 1. unfold try_except.
  rewrite copyinto_rows_file_rows. cbn [fst snd files Common.audit logs].
  rewrite !Z.add_0_l, bind_audit_log. cbn beta. rewrite bind_lift.
  cbn [files Common.audit logs].
  fold (summary_event (environ (ext ses)) (total_rows_loaded rows)
                      (Z.of_nat (length rows))).
  rewrite <- app_assoc.
  now destruct (first_cell _).
Qed.

(** X21: of the code the audit procedure answers, [copyinto_execute]
    hands back the first character only: the text of the first cell is
    indexed once more before it is returned, so an answer of -1 comes back as
    "-". *)
Theorem copyinto_execute_returns_first_character
    (sql : string) (rows : list file_row) (w : world)
    (cell : value) (cells : list value) (others : list (list value)) (c : string) :
  crsr_execute ses sql = inl (map tuple_of rows) ->
  WsWrkAudit (ext ses)
    (summary_event (environ (ext ses)) (total_rows_loaded rows) (Z.of_nat (length rows)))
  = Fetched ((cell :: cells) :: others) ->
  first_char (str cell) = Ok c ->
  (copyinto_execute ses sql w).1
  = Returned (c, final_db_msg (total_rows_loaded rows) (Z.of_nat (length rows))).
Proof.
  intros Hexec Hsink Hc.
  destruct (first_char_single _ _ Hc) as [_ Hc'].
  unfold copyinto_execute, ptry.
  rewrite pbind_debug, pbind_execute, Hexec, pbind_perform.
  rewrite crt_copyinto_message_file_rows, Hsink. cbn [first_cell fst snd].
  rewrite pbind_lift, Hc, pbind_lift, Hc'. reflexivity.
Qed.

(** X22: [sf_copyinto] adds nothing to [copyinto_execute]: for the COPY
    statement it builds, it returns what [copyinto_execute] returns and
    exits where it exits; its own exception handlers are never entered. *)
Theorem sf_copyinto_is_copyinto_execute
    (db_name db_schema load_table sf_stage file_fmt copy_into_options : string)
    (w : world) :
  sf_copyinto ses db_name db_schema load_table sf_stage file_fmt copy_into_options w
  = copyinto_execute ses
      (copy_sql db_name db_schema load_table sf_stage file_fmt copy_into_options) w.
Proof.
  unfold sf_copyinto, ptry. rewrite pbind_unfold.
  destruct (copyinto_execute_ends ses
              (copy_sql db_name db_schema load_table sf_stage file_fmt
                        copy_into_options) w)
    as [(code & msg & w' & -> & _ & Hc) | (text & w' & ->)].
  - cbn [fst snd]. now rewrite pbind_lift, Hc, pbind_lift, Hc.
  - reflexivity.
Qed.

(** X23: [sf_put] does not look at the verdict of [valid_put_options]:
    whether the options were accepted or rejected, the PUT statement is run
    with the text that came back (for a rejection the explanation) in the
    place of the options, and the stage name is returned with [True] whenever
    [put_execute] returns. *)
Theorem sf_put_ignores_the_verdict
    (current_datetime source_path file_pattern stage_folder load_file_extension
       load_table put_mode : string) (put_options : value)
    (accepted : bool) (text : string) (w : world) :
  valid_put_options put_options = Ok (accepted, text) ->
  sf_put ses current_datetime source_path file_pattern stage_folder
         load_file_extension load_table put_mode put_options w
  = pbind
      (put_execute ses
         (put_sql source_path (put_file_pattern ses file_pattern load_file_extension)
                  (stage_of current_datetime stage_folder load_table put_mode) text))
      (fun _ =>
         preturn (true, stage_of current_datetime stage_folder load_table put_mode))
      (mk_world (files w) (Common.audit w)
         (logs w
          ++ ["the sf_stage is :"
              +:+ stage_of current_datetime stage_folder load_table put_mode
              +:+ ", the put_path is :" +:+ fix_path source_path
              +:+ put_file_pattern ses file_pattern load_file_extension +:+ " " +:+ text
              +:+ nl +:+ "              put_sql is :"])).
Proof.
  intros Hvalid. unfold sf_put. rewrite pbind_unfold. unfold ptry.
  rewrite pbind_lift, Hvalid. cbn [fst snd]. rewrite pbind_debug.
  rewrite !pbind_unfold.
  match goal with
  | |- context [put_execute ses ?sql ?w0] =>
      destruct (put_execute_ends ses sql w0) as [(code & w' & -> & _) | (msg & w' & ->)]
  end; reflexivity.
Qed.


(** X25: [check_table_exists] never returns a value.  When the query runs,
    the [return] statement reads a variable that only the error handlers
    set, which is a NameError; when the query or the scan of its rows fails,
    the process ends in [ExitHandler] with "-2". *)
Theorem check_table_exists_never_returns (table_name : string) (w : world) :
  match (check_table_exists ses table_name w).1 with
  | Returned _ => False
  | Raised f => f = Builtin NameError
  | Exited report =>
      exists text,
        report = ExitHandler (environ (ext ses)) (VStr "-2")
                   ("Snowflake SQL execution error: " +:+ text)
  end.
Proof.
  unfold check_table_exists. rewrite pbind_unfold. unfold ptry.
  rewrite pbind_execute.
  destruct (crsr_execute ses (check_sql table_name)) as [rows | f].
  - rewrite pbind_lift.
    destruct (scan_rows rows false) as [found | e].
    + reflexivity.
    + cbn beta iota. rewrite handle_failure_exits. cbn [fst]. eauto.
  - cbn beta iota. rewrite handle_failure_exits. cbn [fst]. eauto.
Qed.

End StagesCompose.

Lemma copyinto_execute_returns_first_character_witness :
  (SqlRun.copyinto_execute grumpy_session "COPY INTO T" empty_world).1
  = SqlRun.Returned ("-", "A total of 5 rows were loaded from 1 file").
Proof.
  apply (copyinto_execute_returns_first_character grumpy_session "COPY INTO T"
           [customers_row] empty_world (Py.VInt (-1)) [] [] "-").
  - reflexivity.
  - reflexivity.
  - reflexivity.
Defined.

Lemma sf_put_ignores_the_verdict_witness :
  (SqlRun.sf_put calm_session "2024-01-02 03:04:05" "C:\work " "customers.parquet"
                 "LOAD_STAGE" "csv" "CUSTOMERS" "TABLE" (Py.VStr "FOO=1") empty_world).1
  = SqlRun.Returned (true, "@%CUSTOMERS").
Proof.
  rewrite (sf_put_ignores_the_verdict calm_session "2024-01-02 03:04:05" "C:\work "
             "customers.parquet" "LOAD_STAGE" "csv" "CUSTOMERS" "TABLE"
             (Py.VStr "FOO=1") false
             "FOO is not a valid keyword. Valid keywords are: PARALLEL, OVERWRITE, AUTO_COMPRESS, SOURCE_COMPRESSION"
             empty_world).
  - vm_compute. reflexivity.
  - reflexivity.
Defined.


(** ** The validator of the PUT options: counts and answers *)
Section PutOptionCounts.
Import PyStr Py SqlExec.

Lemma dict_get_set (d : list (string * Z)) (k k' : string) (v dflt : Z) :
  dict_get (dict_set d k v) k' dflt
  = if String.eqb k k' then v else dict_get d k' dflt.
Proof.
  induction d as [| [k0 v0] d IH]; cbn [dict_set dict_get].
  - reflexivity.
  - destruct (String.eqb k0 k) eqn:E0; cbn [dict_get].
    + apply String.eqb_eq in E0. subst k0. now destruct (String.eqb k k').
    + rewrite IH. destruct (String.eqb k0 k') eqn:E1; [| reflexivity].
      apply String.eqb_eq in E1. subst k'.
      rewrite String.eqb_sym in E0. now rewrite E0.
Qed.

Lemma dict_set_keys (P : string -> Prop) (d : list (string * Z)) (k : string) (v : Z) :
  Forall (fun e => P e.1) d -> P k -> Forall (fun e => P e.1) (dict_set d k v).
Proof.
  intros Hd Hk. induction d as [| [k0 v0] d IH]; cbn [dict_set].
  - constructor; [exact Hk | constructor].
  - inversion Hd as [| e l H0 Hrest]; subst.
    destruct (String.eqb k0 k); constructor; auto.
Qed.

Lemma check_option_counts (option : string) (kc kc' : list (string * Z)) :
  check_option option kc = Ok (Continue kc') ->
  exists kw, keyword_of option = Some kw
             /\ inb kw valid_keywords = true
             /\ kc' = dict_set kc kw (dict_get kc kw 0 + 1).
Proof.
  unfold check_option, keyword_of. intros H.
  destruct (split "=" (strip option)) as [| kw [| a [| b t]]]; try discriminate.
  exists (strip kw).
  destruct (inb (strip kw) valid_keywords) eqn:Hin; cbn [negb] in H; [| discriminate].
  repeat match type of H with
         | context [if ?c then _ else _] => destruct c
         | context [match ?r with Ok _ => _ | Raise _ => _ end] => destruct r
         end; try discriminate; injection H as <-; auto.
Qed.

Lemma check_option_return_text (option : string) (kc : list (string * Z))
    (answer : bool * string) :
  check_option option kc = Ok (Return answer) ->
  exists kw, answer = (false, not_valid_keyword kw).
Proof.
  unfold check_option. intros H.
  destruct (split "=" (strip option)) as [| kw [| a [| b t]]]; try discriminate.
  exists (strip kw).
  repeat match type of H with
         | context [if ?c then _ else _] => destruct c
         | context [match ?r with Ok _ => _ | Raise _ => _ end] => destruct r
         end; try discriminate; now injection H as <-.
Qed.

Lemma check_options_return_text (options : list string) (kc : list (string * Z))
    (answer : bool * string) :
  check_options options kc = Ok (Return answer) ->
  exists kw, answer = (false, not_valid_keyword kw).
Proof.
  revert kc. induction options as [| o options IH]; intros kc H; [discriminate |].
  cbn [check_options] in H.
  destruct (check_option o kc) as [[k | a] | e] eqn:Ho; try discriminate.
  - eauto.
  - injection H as <-. eauto using check_option_return_text.
Qed.

(** After the loop, every count is the number of options naming the
    keyword, and every key is a valid keyword. *)
Lemma check_options_counts (options : list string) (kc kc' : list (string * Z)) :
  check_options options kc = Ok (Continue kc') ->
  Forall (fun o => exists kw, keyword_of o = Some kw /\ inb kw valid_keywords = true)
         options
  /\ (forall k, dict_get kc' k 0
                = dict_get kc k 0
                  + Z.of_nat (length (List.filter (names_keyword k) options)))
  /\ (Forall (fun e => inb e.1 valid_keywords = true) kc ->
      Forall (fun e => inb e.1 valid_keywords = true) kc').
Proof.
  revert kc. induction options as [| o options IH]; intros kc H.
  - injection H as <-. cbn. repeat split; auto. intros k. lia.
  - cbn [check_options] in H.
    destruct (check_option o kc) as [[k1 | a] | e] eqn:Ho; try discriminate.
    destruct (check_option_counts _ _ _ Ho) as (kw & Hkw & Hin & ->).
    destruct (IH _ H) as (Hall & Hcount & Hkeys).
    repeat split.
    + constructor; eauto.
    + intros k. rewrite Hcount, dict_get_set. cbn [List.filter].
      replace (names_keyword k o) with (String.eqb kw k)
        by (unfold names_keyword; now rewrite Hkw).
      destruct (String.eqb kw k) eqn:E; cbn [length].
      * apply String.eqb_eq in E. subst k. lia.
      * lia.
    + intros Hkc. apply Hkeys.
      now apply (dict_set_keys (fun k => inb k valid_keywords = true)).
Qed.

Lemma no_repeated_keyword (d : list (string * Z)) (k : string) :
  List.find (fun kc => (1 <? snd kc) && negb (String.eqb (fst kc) "OVERWRITE")) d = None ->
  k <> "OVERWRITE" ->
  dict_get d k 0 <= 1.
Proof.
  intros Hfind Hk. induction d as [| [k0 v0] d IH]; cbn [dict_get]; [lia |].
  cbn [List.find fst snd] in Hfind.
  destruct ((1 <? v0) && negb (String.eqb k0 "OVERWRITE")) eqn:E; [discriminate |].
  destruct (String.eqb k0 k) eqn:E0; [| auto].
  apply String.eqb_eq in E0. subst k0.
  apply String.eqb_neq in Hk. rewrite Hk in E. cbn [negb] in E.
  rewrite andb_true_r in E. apply Z.ltb_ge in E. exact E.
Qed.

(** X26: when [valid_put_options] accepts a string, every option in it
    is of the form keyword=argument with one of the four valid keywords, and
    no keyword other than OVERWRITE is named by more than one option. *)
Theorem valid_put_options_accepted_keywords (s text : string) :
  valid_put_options (VStr s) = Ok (true, text) ->
  Forall (fun o => exists kw, keyword_of o = Some kw /\ In kw valid_keywords)
         (split "," (upper s))
  /\ forall k, k <> "OVERWRITE" ->
               (length (List.filter (names_keyword k) (split "," (upper s))) <= 1)%nat.
Proof.
  unfold valid_put_options. intros H.
  destruct (check_options (split "," (upper s)) []) as [[kc | a] | e] eqn:Hc;
    try discriminate.
  - destruct (check_options_counts _ _ _ Hc) as (Hall & Hcount & _).
    destruct (List.find _ kc) as [[k0 n] |] eqn:Hfind; [discriminate |].
    split.
    + eapply List.Forall_impl; [| exact Hall].
      intros o (kw & Hkw & Hin). exists kw. split; [exact Hkw |].
      unfold inb in Hin. apply existsb_exists in Hin as (x & Hx & Heq).
      apply String.eqb_eq in Heq. now subst x.
    + intros k Hk. pose proof (no_repeated_keyword kc k Hfind Hk) as Hle.
      rewrite Hcount in Hle. cbn [dict_get] in Hle. lia.
  - destruct (check_options_return_text _ _ _ Hc) as (kw & ->). discriminate.
Qed.

(** X27: the text that comes with a rejection is never an options
    string: it is either the sentence on a keyword that is not valid, or the
    bare name of the keyword that was given twice. *)
Theorem valid_put_options_rejection_text (options_string : value) (text : string) :
  valid_put_options options_string = Ok (false, text) ->
  (exists kw, text = not_valid_keyword kw)
  \/ In text ["PARALLEL"; "AUTO_COMPRESS"; "SOURCE_COMPRESSION"].
Proof.
  unfold valid_put_options. intros H.
  set (options := match options_string with
                  | VStr s => split "," (upper s)
                  | _ => ["OVERWRITE=FALSE"]
                  end) in *.
  destruct (check_options options []) as [[kc | a] | e] eqn:Hc; try discriminate.
  - destruct (check_options_counts _ _ _ Hc) as (_ & _ & Hkeys).
    specialize (Hkeys (List.Forall_nil _)).
    destruct (List.find _ kc) as [[k0 n] |] eqn:Hfind.
    + injection H as <-. right.
      apply List.find_some in Hfind as [Hin Hp]. cbn [fst snd] in Hp.
      apply andb_true_iff in Hp as [_ Hne].
      pose proof (proj1 (List.Forall_forall _ _) Hkeys _ Hin) as Hvalid.
      cbn [fst] in Hvalid. unfold inb, valid_keywords in Hvalid.
      cbn [existsb] in Hvalid.
      destruct (String.eqb k0 "OVERWRITE") eqn:E1; [discriminate |].
      cbn [orb] in Hvalid. rewrite orb_false_r in Hvalid.
      repeat (apply orb_true_iff in Hvalid as [Hvalid | Hvalid]);
        apply String.eqb_eq in Hvalid; subst k0; cbn; auto.
    + destruct (last options); discriminate.
  - left. destruct (check_options_return_text _ _ _ Hc) as (kw & ->).
    injection H as <-. eauto.
Qed.

End PutOptionCounts.

Lemma valid_put_options_accepted_keywords_witness :
  (length (List.filter (names_keyword "PARALLEL")
             (PyStr.split ","
                (PyStr.upper "parallel=4, overwrite=true,OVERWRITE=FALSE"))) <= 1)%nat.
Proof.
  apply (valid_put_options_accepted_keywords
           "parallel=4, overwrite=true,OVERWRITE=FALSE" "OVERWRITE=FALSE").
  - vm_compute. reflexivity.
  - discriminate.
Defined.

Lemma valid_put_options_rejection_text_witness :
  (exists kw, "PARALLEL" = SqlExec.not_valid_keyword kw)
  \/ In "PARALLEL" ["PARALLEL"; "AUTO_COMPRESS"; "SOURCE_COMPRESSION"].
Proof.
  apply (valid_put_options_rejection_text (Py.VStr "PARALLEL=4,PARALLEL=8")).
  vm_compute. reflexivity.
Defined.

(** ** Batch sizes that are not positive *)
Section BatchSizes.
Import Py FileExec.
Context (os : os_path) (fs : file_system).

(** X28: a batch size of zero is a ValueError of [range], and with a
    negative batch size the list of batches is empty: the call returns and
    no file is compressed, however many files match the pattern. *)
Theorem compress_files_in_folder_nonpositive_batch
    (compress_method source_path has_header file_pattern files_per_batch : string)
    (n : Z) :
  files_per_batch_int files_per_batch = Some n ->
  n <= 0 ->
  compress_files_in_folder os fs compress_method source_path has_header
                           file_pattern files_per_batch
  = if n =? 0 then Raise ValueError else Ok [].
Proof.
  intros Hn Hle. unfold compress_files_in_folder. rewrite Hn.
  unfold range. destruct (n =? 0) eqn:E; [reflexivity |].
  apply Z.eqb_neq in E. unfold range_len.
  replace (0 <? n) with false by (symmetry; apply Z.ltb_ge; lia).
  set (len := Z.of_nat _).
  assert (Hq : (0 - len - n - 1) / (- n) < 1).
  { apply Z.div_lt_upper_bound; lia. }
  replace (Z.to_nat ((0 - len - n - 1) / (- n))) with 0%nat by lia.
  reflexivity.
Qed.

End BatchSizes.

Lemma compress_files_in_folder_nonpositive_batch_witness :
  FileExec.compress_files_in_folder plain_os five_files_fs "gzip" "C:\data " "true"
                                    "*.csv" "-3"
  = Py.Ok [].
Proof.
  apply (compress_files_in_folder_nonpositive_batch plain_os five_files_fs "gzip"
           "C:\data " "true" "*.csv" "-3" (-3)).
  - reflexivity.
  - lia.
Defined.

(** ** Statements that move files out: the answer by the rows *)
Section Exports.
Import Py Common SqlExec SqlOps SqlRun SqlExport.
Context (ses : session) (stm : statement).

Lemma repeat_snoc {A} (x : A) (n : nat) : repeat x n ++ [x] = x :: repeat x n.
Proof. induction n as [| n IH]; cbn [repeat app]; [reflexivity | now rewrite IH]. Qed.

Lemma get_rows_answer
    (export_path file_name export_db export_folder export_schema : string)
    (results : list (list value)) (bound : option (string * string)) (w : world) :
  get_rows ses stm export_path file_name export_db export_folder export_schema
           results bound w
  = (Returned
       (match results with
        | [] => bound
        | _ => Some ("1",
                     "GET executed successfully for " +:+ export_db +:+ "."
                     +:+ export_folder +:+ "." +:+ export_schema +:+ "/" +:+ file_name)
        end),
     mk_world (files w)
       (Common.audit w
        ++ repeat (audit_record_of (environ (ext ses)) "I"
                     "Get for Export executed successfully" "db_code3"
                     (got_from export_path file_name export_db export_folder
                               export_schema))
                  (length results))
       (logs w ++ repeat ("sfqid " +:+ sfqid stm) (length results))).
Proof.
  revert bound w. induction results as [| row rest IH]; intros bound w.
  - cbn [get_rows length repeat]. unfold preturn. rewrite !app_nil_r. now destruct w.
  - cbn [get_rows]. rewrite pbind_audit, pbind_debug, IH.
    cbn [files Common.audit logs length repeat].
    rewrite <- !app_assoc. cbn [app]. f_equal. now destruct rest.
Qed.


Lemma export_rows_answer (db_name db_schema sf_stage file_name : string)
    (results : list (list value))
    (bound : option (string * string * list value)) (w : world) :
  Forall (fun row => (3 <= length row)%nat) results ->
  export_rows ses stm db_name db_schema sf_stage file_name results bound w
  = (Returned
       (match last results with
        | None => bound
        | Some row_counts =>
            Some ("1",
                  "Copy Into executed successfully for "
                  +:+ exported_to db_name db_schema sf_stage file_name,
                  row_counts)
        end),
     mk_world (files w)
       (Common.audit w
        ++ map (fun row =>
                  audit_record_of (environ (ext ses)) "I"
                    "Copy Into for Export executed successfully" "db_code3"
                    ("Exported " +:+ str (nth 2 row VNone) +:+ " rows to "
                     +:+ exported_to db_name db_schema sf_stage file_name))
               results)
       (logs w
        ++ map (fun row =>
                  "sfqid " +:+ sfqid stm +:+ " " +:+ "Exported "
                  +:+ str (nth 2 row VNone) +:+ " rows to "
                  +:+ exported_to db_name db_schema sf_stage file_name)
               results)).
Proof.
  intros Hrows. revert bound w.
  induction Hrows as [| row rest Hrow Hrest IH]; intros bound w.
  - cbn [export_rows map last]. unfold preturn. rewrite !app_nil_r. now destruct w.
  - destruct row as [| a [| b [| cell more]]]; cbn [length] in Hrow; try lia.
    cbn [export_rows]. rewrite pbind_audit, pbind_debug, IH.
    cbn [files Common.audit logs map nth].
    rewrite <- !app_assoc. cbn [app]. f_equal.
    destruct rest as [| r rest']; [reflexivity |].
    change (last ((a :: b :: cell :: more) :: r :: rest')) with (last (r :: rest')).
    destruct (last (r :: rest')) eqn:Hlast; [reflexivity |].
    apply last_None in Hlast. discriminate.
Qed.


End Exports.


